(** * ODL / RL: input normalisation and the CUDA space wrappers

    A shallow embedding of
      - [odl/util/normalize.py]  (normalized_scalar_param_list,
                                  normalized_index_expression),
      - [odl/space/cuda.py]      (CudaFn, CudaRn, CudaFn.Vector, sum),
      - [RL/space/cuda.py]       (CudaRN, CudaRN.Vector, the sum property).

    Python integers are unbounded, hence [Z].  A Python call either
    returns a value or raises; the pure helpers of normalize.py return
    [outcome], the wrappers of the native extension run in the monad [M],
    which also records every call that crosses into the extension. *)

From Stdlib Require Import String ZArith List Bool Lia.
Import ListNotations.
Local Open Scope Z_scope.

(* ===================================================================== *)
(** ** Python outcomes *)
(* ===================================================================== *)

Module Py.

(** The exception classes that occur in the three source files, and
    [NativeError] for whatever else the compiled extension may raise. *)
Inductive exn : Type :=
| TypeError
| ValueError
| IndexError
| AttributeError
| MemoryError
| NotImplementedError
| NativeError (code : Z).

Inductive outcome (A : Type) : Type :=
| Ok (a : A)
| Raise (e : exn).
Arguments Ok {A} a.
Arguments Raise {A} e.

Definition bind {A B : Type} (c : outcome A) (k : A -> outcome B)
  : outcome B :=
  match c with
  | Ok a => k a
  | Raise e => Raise e
  end.

Definition raises {A : Type} (c : outcome A) : Prop :=
  exists e, c = Raise e.

Definition returns {A : Type} (c : outcome A) : Prop :=
  exists a, c = Ok a.

(** Python's [len] as an integer. *)
Definition len {A : Type} (l : list A) : Z := Z.of_nat (List.length l).

(** [[x] * k]: a non-positive [k] gives the empty list. *)
Definition list_mul {A : Type} (l : list A) (k : Z) : list A :=
  concat (repeat l (Z.to_nat k)).

End Py.
Import Py.

Declare Scope py_scope.
Notation "x <- c ;; k" := (bind c (fun x => k))
  (at level 61, c at next level, right associativity) : py_scope.
Local Open Scope py_scope.

(* ===================================================================== *)
(** ** odl/util/normalize.py *)
(* ===================================================================== *)

Module Normalize.

(** *** normalized_scalar_param_list *)

(** The values a single parameter can take.  numpy treats a string as a
    scalar ([np.isscalar('10')] holds and [np.array('10', dtype=object)]
    is 0-dimensional), so a string is a value here and not a sequence;
    [VObj] is any other object without a length. *)
Inductive value : Type :=
| VInt (z : Z)
| VStr (s : string)
| VNone
| VObj (id : nat).

(** [param] is a single value or a flat sequence (list, tuple) of values;
    the docstring excludes parameters that are themselves iterable. *)
Inductive param : Type :=
| Single (v : value)
| Sequence (l : list value).

(** [np.isscalar]: numbers and strings, but not None or other objects. *)
Definition np_isscalar (v : value) : bool :=
  match v with
  | VInt _ | VStr _ => true
  | VNone | VObj _ => false
  end.

(** [np.array(param, dtype=object, copy=True, ndmin=1)]: the entries of
    the resulting one-dimensional array. *)
Definition np_array_ndmin1 (p : param) : list value :=
  match p with
  | Single v => [v]
  | Sequence l => l
  end.

(** [np.broadcast_to(arr, (length,))] for a one-dimensional [arr]:
    shape [(1,)] and shape [(length,)] broadcast, any other shape is a
    ValueError. *)
Definition np_broadcast_to (arr : list value) (length : Z)
  : outcome (list value) :=
  if len arr =? length then Ok arr
  else match arr with
       | [x] => Ok (repeat x (Z.to_nat length))
       | _ => Raise ValueError
       end.

(** The [except AttributeError] branch, taken when numpy has no
    [broadcast_to]. *)
Definition fallback_list (p : param) (length : Z) : outcome (list value) :=
  match p with
  | Single v =>
      if np_isscalar v then Ok (list_mul [v] length)
      else (* len(param) raises TypeError: single parameter *)
        Ok (list_mul [v] length)
  | Sequence l =>
      let param_len := len l in
      if param_len =? 1 then Ok (list_mul l length)
      else if param_len =? length then Ok l
      else Raise ValueError
  end.

(** Conversion loop: [out_list[i] = param_conv(p)] unless [p is None and
    keep_none]; [param_conv] may raise. *)
Fixpoint convert_all (param_conv : value -> outcome value)
         (keep_none : bool) (out_list : list value) : outcome (list value) :=
  match out_list with
  | [] => Ok []
  | p :: rest =>
      p' <- (match p with
             | VNone => if keep_none then Ok p else param_conv p
             | _ => param_conv p
             end) ;;
      rest' <- convert_all param_conv keep_none rest ;;
      Ok (p' :: rest')
  end.

(** [has_broadcast_to] tells whether the installed numpy provides
    [np.broadcast_to] (numpy >= 1.10); without it the [try] block ends
    in AttributeError. *)
Definition normalized_scalar_param_list (has_broadcast_to : bool)
           (p : param) (length : Z)
           (param_conv : option (value -> outcome value))
           (keep_none : bool) : outcome (list value) :=
  if length <=? 0 then Raise ValueError
  else
    out_list <- (if has_broadcast_to
                 then np_broadcast_to (np_array_ndmin1 p) length
                 else fallback_list p length) ;;
    if negb (len out_list =? length) then Raise ValueError
    else
      match param_conv with
      | None => Ok out_list
      | Some conv => convert_all conv keep_none out_list
      end.

(** *** normalized_index_expression *)

(** One entry of an index expression: an integer, [slice(start, stop,
    step)] with each field an integer or None, [Ellipsis], or [None]. *)
Inductive index : Type :=
| IInt (i : Z)
| ISlice (start stop step : option Z)
| IEllipsis
| INone.

(** [slice(None)] *)
Definition full_slice : index := ISlice None None None.

(** The [indices] argument: one entry on its own, or a sequence. *)
Inductive index_expr : Type :=
| One (i : index)
| Many (l : list index).

Definition is_ellipsis (i : index) : bool :=
  match i with IEllipsis => true | _ => false end.

Definition is_none (i : index) : bool :=
  match i with INone => true | _ => false end.

Definition is_slice (i : index) : bool :=
  match i with ISlice _ _ _ => true | _ => false end.

Definition is_int (i : index) : bool :=
  match i with IInt _ => true | _ => false end.

(** [x in indices], [indices.count(x)] and [indices.index(x)] for the
    two singletons, which compare equal to themselves only. *)
Definition contains (p : index -> bool) (l : list index) : bool :=
  existsb p l.

Definition count (p : index -> bool) (l : list index) : Z :=
  len (filter p l).

Fixpoint index_of (p : index -> bool) (l : list index) : nat :=
  match l with
  | [] => 0%nat
  | x :: rest => if p x then 0%nat else S (index_of p rest)
  end.

(** Lines 219-224: scalars become [[indices, Ellipsis]], a slice or an
    Ellipsis is wrapped in a list, a sequence is copied; [list(None)]
    is a TypeError. *)
Definition as_list (indices : index_expr) : outcome (list index) :=
  match indices with
  | One (IInt i) => Ok [IInt i; IEllipsis]
  | One (ISlice a b c) => Ok [ISlice a b c]
  | One IEllipsis => Ok [IEllipsis]
  | One INone => Raise TypeError
  | Many l => Ok l
  end.

(** Lines 225-226. *)
Definition append_ellipsis (ndim : Z) (indices : list index) : list index :=
  if (len indices <? ndim) && negb (contains is_ellipsis indices)
  then indices ++ [IEllipsis]
  else indices.

(** Lines 229-236. *)
Definition fill_ellipsis (ndim : Z) (indices : list index)
  : outcome (list index) :=
  if contains is_ellipsis indices then
    if count is_ellipsis indices >? 1 then Raise ValueError
    else
      let eidx := index_of is_ellipsis indices in
      let extra_dims := ndim - len indices + 1 in
      Ok (firstn eidx indices ++ list_mul [full_slice] extra_dims
            ++ skipn (S eidx) indices)
  else Ok indices.

(** Lines 239-249: the loop over [zip(enumerate(indices), shape)].  The
    wrapped value [idx] is local to the loop body; [indices[i]] is only
    overwritten when [int_to_slice] is set. *)
Fixpoint check_ints (int_to_slice : bool) (indices : list index)
         (shape : list Z) : outcome (list index) :=
  match indices, shape with
  | entry :: rest, n :: shape' =>
      entry' <- (match entry with
                 | IInt i =>
                     let idx := if i <? 0 then i + n else i in
                     if idx >=? n then Raise IndexError
                     else if int_to_slice
                          then Ok (ISlice (Some idx) (Some (idx + 1)) None)
                          else Ok entry
                 | _ => Ok entry
                 end) ;;
      rest' <- check_ints int_to_slice rest shape' ;;
      Ok (entry' :: rest')
  | _, _ => Ok indices
  end.

Definition opt_eqb (a b : option Z) : bool :=
  match a, b with
  | Some x, Some y => x =? y
  | None, None => true
  | _, _ => false
  end.

(** [s.start == s.stop and s.start is not None or s.start == n] *)
Definition caught_slice (s : index) (n : Z) : bool :=
  match s with
  | ISlice start stop _ =>
      (opt_eqb start stop && negb (opt_eqb start None))
      || opt_eqb start (Some n)
  | _ => false
  end.

(** Lines 252-254: [any(... for s, n in zip(indices, shape)
    if isinstance(s, slice))]. *)
Fixpoint any_caught (indices : list index) (shape : list Z) : bool :=
  match indices, shape with
  | s :: rest, n :: shape' =>
      (is_slice s && caught_slice s n) || any_caught rest shape'
  | _, _ => false
  end.

Definition normalized_index_expression (indices : index_expr)
           (shape : list Z) (int_to_slice : bool) : outcome (list index) :=
  let ndim := len shape in
  indices <- as_list indices ;;
  let indices := append_ellipsis ndim indices in
  indices <- fill_ellipsis ndim indices ;;
  indices <- check_ints int_to_slice indices shape ;;
  if any_caught indices shape then Raise ValueError
  else if contains is_none indices then Raise ValueError
  else if len indices >? ndim then Raise IndexError
  else Ok indices.

(** How the loop of lines 239-249 may change one entry: not at all, or
    from an integer to a slice of length one when [int_to_slice] is
    set. *)
Definition entry_rel (int_to_slice : bool) (x y : index) : Prop :=
  y = x
  \/ (int_to_slice = true
      /\ exists i j, x = IInt i /\ y = ISlice (Some j) (Some (j + 1)) None).

(** *** Python's reading of a slice along an axis

    [slice.indices(n)] followed by [len(range(start, stop, step))]: the
    number of elements that [s] selects on an axis of size [n]
    ([None] when the step is zero, which Python rejects). *)
Definition clip (lo hi x : Z) : Z := Z.max lo (Z.min hi x).

Definition slice_length (start stop step : option Z) (n : Z) : option Z :=
  let st := match step with Some k => k | None => 1 end in
  if st =? 0 then None
  else if st >? 0 then
    let adj x := if x <? 0 then clip 0 n (x + n) else clip 0 n x in
    let a := match start with Some x => adj x | None => 0 end in
    let b := match stop with Some x => adj x | None => n end in
    Some (if a <? b then (b - a - 1) / st + 1 else 0)
  else
    let adj x := if x <? 0 then clip (-1) (n - 1) (x + n)
                 else clip (-1) (n - 1) x in
    let a := match start with Some x => adj x | None => n - 1 end in
    let b := match stop with Some x => adj x | None => -1 end in
    Some (if b <? a then (a - b - 1) / (- st) + 1 else 0).

Definition selects_nothing (s : index) (n : Z) : Prop :=
  match s with
  | ISlice start stop step => slice_length start stop step n = Some 0
  | _ => False
  end.

End Normalize.


(* ===================================================================== *)
(** ** The compiled extensions, seen from Python *)
(* ===================================================================== *)

Module Native.

(** The classes the two extensions export: the vector types of
    [odlpp.odlpp_cuda] and the space and vector types of
    [RLcpp.PyCuda]. *)
Inductive native_class : Type :=
| CudaVectorFloat32 | CudaVectorFloat64
| CudaVectorInt8 | CudaVectorInt16 | CudaVectorInt32 | CudaVectorInt64
| CudaVectorUInt8 | CudaVectorUInt16 | CudaVectorUInt32 | CudaVectorUInt64
| CudaRNImpl | CudaRNVectorImpl.

(** numpy element types; the last five have no CUDA vector type. *)
Inductive dtype : Type :=
| float32 | float64
| int8 | int16 | int32 | int64
| uint8 | uint16 | uint32 | uint64
| float16 | complex64 | complex128 | bool_ | object_.

Scheme Equality for native_class.
Scheme Equality for dtype.

(** The Python objects that reach the wrappers.  [OInt z] is any
    instance of [numbers.Integral] of value [z]; the entries of lists
    and arrays are kept as integers, no operation here computes on
    them; [OHandle cls id] is an instance of the extension class
    [cls]. *)
Inductive pyobj : Type :=
| ONone
| OInt (z : Z)
| OFloat (mantissa exponent : Z)
| OStr (s : string)
| OList (l : list Z)
| ONdarray (dt : dtype) (data : list Z)
| OSlice (start stop step : option Z)
| OHandle (cls : native_class) (id : Z).

Definition isinstance (o : pyobj) (cls : native_class) : bool :=
  match o with
  | OHandle c _ => native_class_beq c cls
  | _ => false
  end.

Definition is_slice (o : pyobj) : bool :=
  match o with OSlice _ _ _ => true | _ => false end.

Definition is_ndarray (o : pyobj) : bool :=
  match o with ONdarray _ _ => true | _ => false end.

Definition is_list (o : pyobj) : bool :=
  match o with OList _ => true | _ => false end.

Definition is_None (o : pyobj) : bool :=
  match o with ONone => true | _ => false end.

(** A call that crosses into an extension. *)
Inductive native_call : Type :=
| Construct (cls : native_class) (args : list pyobj)
    (* cls(args...) *)
| ClassMethod (cls : native_class) (name : string) (args : list pyobj)
    (* cls.name(args...) *)
| Method (self : pyobj) (name : string) (args : list pyobj)
    (* self.name(args...) *)
| Function (name : string) (args : list pyobj).
    (* module.name(args...) *)

Definition log : Type := list native_call.

(** What an extension answers to a call, given the calls made so far. *)
Definition extension : Type := log -> native_call -> outcome pyobj.

(** Wrapper code: it may raise, and it extends the log of native calls;
    the log survives an exception. *)
Definition M (A : Type) : Type := log -> outcome A * log.

Definition ret {A : Type} (a : A) : M A := fun lg => (Ok a, lg).

Definition raise {A : Type} (e : exn) : M A := fun lg => (Raise e, lg).

Definition lift {A : Type} (c : outcome A) : M A := fun lg => (c, lg).

Definition bindM {A B : Type} (c : M A) (k : A -> M B) : M B :=
  fun lg =>
    match c lg with
    | (Ok a, lg') => k a lg'
    | (Raise e, lg') => (Raise e, lg')
    end.

Definition call (ext : extension) (c : native_call) : M pyobj :=
  fun lg => (ext lg c, lg ++ [c]).

End Native.
Import Native.

Notation "x <~ c ;; k" := (bindM c (fun x => k))
  (at level 61, c at next level, right associativity) : py_scope.

(* ===================================================================== *)
(** ** odl/space/cuda.py *)
(* ===================================================================== *)

Module ODL.

(** What a caller passes as [dtype]: a numpy type or dtype object, the
    builtins [float] (np.float) and [int] (np.int), or something that
    [np.dtype] does not understand. *)
Inductive dtype_spec : Type :=
| OfDtype (d : dtype)
| PyFloat
| PyInt
| NotADtype.

Inductive field_set : Type := RealNumbers.

Inductive space_class : Type := CudaFn_class | CudaRn_class.

Scheme Equality for space_class.

Record CudaFn : Type := mkCudaFn {
  class_of : space_class;
  _field : field_set;
  _dim : Z;
  _dtype : dtype;
  _vector_impl : native_class
}.

(** A Python dict with keys of type [K], in insertion order; a key that
    is set again keeps its place and takes the new value. *)
Section Dict.
Context {K V : Type} (eqb : K -> K -> bool).

Fixpoint dict_set (d : list (K * V)) (k : K) (v : V) : list (K * V) :=
  match d with
  | [] => [(k, v)]
  | (k', v') :: rest =>
      if eqb k' k then (k, v) :: rest else (k', v') :: dict_set rest k v
  end.

Definition dict_literal (items : list (K * V)) : list (K * V) :=
  fold_left (fun d kv => dict_set d (fst kv) (snd kv)) items [].

Fixpoint dict_get (d : list (K * V)) (k : K) : option V :=
  match d with
  | [] => None
  | (k', v) :: rest => if eqb k' k then Some v else dict_get rest k
  end.
End Dict.

(** The element types that the specification enumerates as supported:
    32- and 64-bit float, 8-, 16-, 32- and 64-bit signed and unsigned
    integer.  [CudaFn.dtypes] is compared with it below. *)
Definition spec_supported_dtype (d : dtype) : bool :=
  match d with
  | float32 | float64
  | int8 | int16 | int32 | int64
  | uint8 | uint16 | uint32 | uint64 => true
  | float16 | complex64 | complex128 | bool_ | object_ => false
  end.

(** "A positive integer", as the specification words the dimension. *)
Definition spec_positive_integer (o : pyobj) : bool :=
  match o with
  | OInt z => 1 <=? z
  | _ => false
  end.

Section Wrappers.

(** [np.dtype(np.int).itemsize == 8]: the C long of the platform. *)
Variable long_is_64 : bool.
(** The extension [odlpp.odlpp_cuda]. *)
Variable cuda : extension.
(** [np.asarray(value, dtype=...)]. *)
Variable np_asarray : pyobj -> dtype -> outcome pyobj.

Definition np_float : dtype := float64.
Definition np_int : dtype := if long_is_64 then int64 else int32.

Definition np_dtype (spec : dtype_spec) : outcome dtype :=
  match spec with
  | OfDtype d => Ok d
  | PyFloat => Ok np_float
  | PyInt => Ok np_int
  | NotADtype => Raise TypeError
  end.

Definition itemsize (d : dtype) : Z :=
  match d with
  | int8 | uint8 | bool_ => 1
  | int16 | uint16 | float16 => 2
  | float32 | int32 | uint32 => 4
  | float64 | int64 | uint64 | complex64 | object_ => 8
  | complex128 => 16
  end.

Definition _get_int_type : outcome native_class :=
  if itemsize np_int =? 4 then Ok CudaVectorInt32
  else if itemsize np_int =? 8 then Ok CudaVectorInt64
  else Raise NotImplementedError.

(** The class attribute [CudaFn.dtypes], built when the class body
    runs. *)
Definition dtypes : outcome (list (dtype * native_class)) :=
  int_type <- _get_int_type ;;
  Ok (dict_literal dtype_beq
        [ (np_float, CudaVectorFloat64);
          (float32, CudaVectorFloat32);
          (float64, CudaVectorFloat64);
          (np_int, int_type);
          (int8, CudaVectorInt8);
          (int16, CudaVectorInt16);
          (int32, CudaVectorInt32);
          (int64, CudaVectorInt64);
          (uint8, CudaVectorUInt8);
          (uint16, CudaVectorUInt16);
          (uint32, CudaVectorUInt32);
          (uint64, CudaVectorUInt64) ]).

(** [CudaFn.__init__(self, dim, dtype)], for an instance of class
    [cls]; the result is [self] once all attributes are set.  A class
    body that raised leaves no class to instantiate: the model raises
    the same exception here. *)
Definition CudaFn__init__ (cls : space_class) (dim : pyobj)
           (dtype : dtype_spec) : M CudaFn :=
  match dim with
  | OInt d =>
      if d <? 1 then raise TypeError
      else
        dt <~ lift (np_dtype dtype) ;;
        table <~ lift dtypes ;;
        match dict_get dtype_beq table dt with
        | None => raise TypeError
        | Some impl => ret (mkCudaFn cls RealNumbers d dt impl)
        end
  | _ => (* not isinstance(dim, Integral) *) raise TypeError
  end.

Definition default_dtype : dtype_spec := OfDtype float32.

(** [CudaFn(dim, dtype)] and [CudaRn(dim)]. *)
Definition new_CudaFn (dim : pyobj) (dtype : dtype_spec) : M CudaFn :=
  CudaFn__init__ CudaFn_class dim dtype.

Definition new_CudaRn (dim : pyobj) : M CudaFn :=
  CudaFn__init__ CudaRn_class dim (OfDtype float32).

Definition dim (self : CudaFn) : Z := _dim self.

(** The argument of [equals] is any object. *)
Inductive object : Type :=
| Space (s : CudaFn)
| Other (o : pyobj).

Definition equals (self : CudaFn) (other : object) : bool :=
  match other with
  | Space o =>
      space_class_beq (class_of self) (class_of o)
      && (dim self =? dim o)
      && dtype_beq (_dtype self) (_dtype o)
  | Other _ => false
  end.

(** Modelled from the spec: the operators [==] and [!=], which the
    base class [spaces.LinearSpace] defines in a file that is not
    among the sources; the specification reads [S1 == S2] as
    [S1.equals(S2)] and [S1 != S2] as its negation. *)
Definition space_eq (self : CudaFn) (other : object) : bool :=
  equals self other.

Definition space_ne (self : CudaFn) (other : object) : bool :=
  negb (equals self other).

(** *** CudaFn.Vector *)

(** [_data] is absent until [__init__] assigns it. *)
Record Vector : Type := mkVector {
  space : CudaFn;
  _data : option pyobj
}.

(** [Vector.__init__(self, space, data)]: the state of [self] when
    the method returns, and the value it returns ([None] stands for
    Python's None, [Some e] for an exception object, which line 327
    returns instead of raising).  The base class initialiser is not
    part of these sources; it is taken to store [space], which the
    next line reads back through [self.space]. *)
Definition Vector__init__ (space : CudaFn) (data : pyobj)
  : Vector * option exn :=
  let self := mkVector space None in
  if negb (isinstance data (_vector_impl space))
  then (self, Some TypeError)
  else (mkVector space (Some data), None).

(** The class call [Vector(space, data)].  Python's [type.__call__]
    raises TypeError ("__init__() should return None") when
    [__init__] returns anything but None. *)
Definition new_Vector (space : CudaFn) (data : pyobj) : outcome Vector :=
  match Vector__init__ space data with
  | (self, None) => Ok self
  | (_, Some _) => Raise TypeError
  end.

(** The [data] property; reading an attribute that was never set is
    an AttributeError. *)
Definition data (self : Vector) : outcome pyobj :=
  match _data self with
  | Some d => Ok d
  | None => Raise AttributeError
  end.

Definition data_ptr (self : Vector) : M pyobj :=
  d <~ lift (data self) ;;
  call cuda (Method d "data_ptr" []).

Definition Vector__len__ (self : Vector) : Z := dim (space self).

Definition Vector__getitem__ (self : Vector) (index : pyobj) : M pyobj :=
  d <~ lift (data self) ;;
  if is_slice index then call cuda (Method d "getslice" [index])
  else call cuda (Method d "__getitem__" [index]).

Definition Vector__setitem__ (self : Vector) (index value : pyobj)
  : M pyobj :=
  if is_slice index then
    value <~ lift (np_asarray value (_dtype (space self))) ;;
    d <~ lift (data self) ;;
    call cuda (Method d "setslice" [index; value])
  else
    d <~ lift (data self) ;;
    call cuda (Method d "__setitem__" [index; value]).

(** *** CudaFn.element, zero, _lincomb *)

(** The first branch of [element], which the third one re-enters
    through [self.element()]. *)
Definition element_empty (self : CudaFn) : M Vector :=
  h <~ call cuda (Construct (_vector_impl self) [OInt (dim self)]) ;;
  lift (new_Vector self h).

Definition element (self : CudaFn) (inp data_ptr : pyobj) : M Vector :=
  if is_None inp && is_None data_ptr then
    element_empty self
  else if is_None inp then
    h <~ call cuda (ClassMethod (_vector_impl self) "from_pointer"
                      [data_ptr; OInt (dim self)]) ;;
    lift (new_Vector self h)
  else if is_None data_ptr then
    elem <~ element_empty self ;;
    _ <~ Vector__setitem__ elem (OSlice None None None) inp ;;
    ret elem
  else raise TypeError.

Definition zero (self : CudaFn) : M Vector :=
  h <~ call cuda (Construct (_vector_impl self) [OInt (dim self); OInt 0]) ;;
  lift (new_Vector self h).

Definition _lincomb (z : Vector) (a : pyobj) (x : Vector) (b : pyobj)
           (y : Vector) : M pyobj :=
  zd <~ lift (data z) ;;
  xd <~ lift (data x) ;;
  yd <~ lift (data y) ;;
  call cuda (Method zd "linComb" [a; xd; b; yd]).

(** *** Module-level functions *)

Definition abs (inp outp : Vector) : M pyobj :=
  i <~ lift (data inp) ;;
  o <~ lift (data outp) ;;
  _ <~ call cuda (Function "cuda.abs" [i; o]) ;;
  ret ONone.

Definition sign (inp outp : Vector) : M pyobj :=
  i <~ lift (data inp) ;;
  o <~ lift (data outp) ;;
  _ <~ call cuda (Function "cuda.sign" [i; o]) ;;
  ret ONone.

Definition add_scalar (inp : Vector) (scal : pyobj) (outp : Vector)
  : M pyobj :=
  i <~ lift (data inp) ;;
  o <~ lift (data outp) ;;
  _ <~ call cuda (Function "cuda.add_scalar" [i; scal; o]) ;;
  ret ONone.

Definition max_vector_scalar (inp : Vector) (scal : pyobj) (outp : Vector)
  : M pyobj :=
  i <~ lift (data inp) ;;
  o <~ lift (data outp) ;;
  _ <~ call cuda (Function "cuda.max_vector_scalar" [i; scal; o]) ;;
  ret ONone.

Definition max_vector_vector (inp1 inp2 outp : Vector) : M pyobj :=
  i1 <~ lift (data inp1) ;;
  i2 <~ lift (data inp2) ;;
  o <~ lift (data outp) ;;
  _ <~ call cuda (Function "cuda.max_vector_vector" [i1; i2; o]) ;;
  ret ONone.

Definition sum (inp : Vector) : M pyobj :=
  i <~ lift (data inp) ;;
  call cuda (Function "cuda.sum" [i]).

(** *** The probe at the end of the module

    [try: CudaRn(1).element() except MemoryError: raise ImportError(...)].
    The module either loads, or fails with ImportError, or fails with
    whatever other exception the probe raised. *)
Inductive module_load : Type :=
| Loaded
| ImportError
| Failed (e : exn).

Definition load_module : log -> module_load * log :=
  fun lg =>
    match (rn <~ new_CudaRn (OInt 1) ;; element rn ONone ONone) lg with
    | (Ok _, lg') => (Loaded, lg')
    | (Raise MemoryError, lg') => (ImportError, lg')
    | (Raise e, lg') => (Failed e, lg')
    end.

End Wrappers.

End ODL.

(* ===================================================================== *)
(** ** RL/space/cuda.py *)
(* ===================================================================== *)

Module RL.

(** A [CudaRN] space: the dimension as given and the native space
    object.  The dimension argument is followed for integer values. *)
Record CudaRN : Type := mkCudaRN {
  n : Z;
  _field : ODL.field_set;
  impl : pyobj
}.

Section Wrappers.

(** The extension [RLcpp.PyCuda]. *)
Variable PyCuda : extension.
(** [np.array(value, dtype=...)]. *)
Variable np_array : pyobj -> dtype -> outcome pyobj.

Definition CudaRN__init__ (n : Z) : M CudaRN :=
  h <~ call PyCuda (Construct CudaRNImpl [OInt n]) ;;
  ret (mkCudaRN n ODL.RealNumbers h).

Definition dimension (self : CudaRN) : Z := n self.

(** The argument of [equals] is any object. *)
Inductive object : Type :=
| Space (s : CudaRN)
| Other (o : pyobj).

Definition equals (self : CudaRN) (other : object) : bool :=
  match other with
  | Space o => n self =? n o
  | Other _ => false
  end.

(** *** CudaRN.Vector *)

Record Vector : Type := mkVector {
  space : CudaRN;
  vimpl : pyobj
}.

(** [value.dtype.type is not np.float]: [np.float] is the builtin
    [float], which is never the scalar type of an array. *)
Definition dtype_type_is_np_float (dt : dtype) : bool := false.

(** [value.astype(np.float)] *)
Definition astype_float (value : pyobj) : outcome pyobj :=
  match value with
  | ONdarray _ elts => Ok (ONdarray float64 elts)
  | _ => Raise AttributeError
  end.

Definition Vector__setitem__ (self : Vector) (index value : pyobj)
  : M pyobj :=
  if is_slice index then
    value <~ (match value with
              | ONdarray dt _ =>
                  if negb (dtype_type_is_np_float dt)
                  then lift (astype_float value)
                  else ret value
              | _ => lift (np_array value float64)
              end) ;;
    call PyCuda (Method (vimpl self) "setSlice" [index; value])
  else
    call PyCuda (Method (vimpl self) "__setitem__" [index; value]).

Definition Vector__getitem__ (self : Vector) (index : pyobj) : M pyobj :=
  if is_slice index then call PyCuda (Method (vimpl self) "getSlice" [index])
  else call PyCuda (Method (vimpl self) "__getitem__" [index]).

(** [Vector.__init__(self, space, *args)].  The method has no return
    statement, so the class call [CudaRN.Vector(space, *args)] yields
    [self] whenever the body does not raise.  The base class
    initialiser is not part of these sources; it is taken to store
    [space]. *)
Definition Vector__init__ (space : CudaRN) (args : list pyobj) : M Vector :=
  match args with
  | [] => raise IndexError
  | arg0 :: _ =>
      if isinstance arg0 CudaRNVectorImpl then
        ret (mkVector space arg0)
      else if is_ndarray arg0 then
        h <~ call PyCuda (Method (impl space) "empty" []) ;;
        let self := mkVector space h in
        _ <~ Vector__setitem__ self (OSlice None None None) arg0 ;;
        ret self
      else if is_list arg0 then
        h <~ call PyCuda (Method (impl space) "empty" []) ;;
        let self := mkVector space h in
        arr <~ lift (np_array arg0 float64) ;;
        _ <~ Vector__setitem__ self (OSlice None None None) arr ;;
        ret self
      else
        h <~ call PyCuda (Construct CudaRNVectorImpl args) ;;
        ret (mkVector space h)
  end.

Definition makeVector (self : CudaRN) (args : list pyobj) : M Vector :=
  Vector__init__ self args.

Definition zero (self : CudaRN) : M Vector :=
  h <~ call PyCuda (Method (impl self) "zero" []) ;;
  makeVector self [h].

Definition empty (self : CudaRN) : M Vector :=
  h <~ call PyCuda (Method (impl self) "empty" []) ;;
  makeVector self [h].

(** *** The function properties

    Each property wraps a lambda in [fun.LambdaFunction], which is
    not part of these sources; the model is the lambda. *)
Definition abs (self : CudaRN) (input output : Vector) : M pyobj :=
  call PyCuda (Function "RLcpp.PyCuda.abs" [vimpl input; vimpl output]).

Definition sign (self : CudaRN) (input output : Vector) : M pyobj :=
  call PyCuda (Function "RLcpp.PyCuda.sign" [vimpl input; vimpl output]).

Definition sum (self : CudaRN) (input output : Vector) : M pyobj :=
  call PyCuda (Function "RLcpp.PyCuda.abs" [vimpl input]).

End Wrappers.

End RL.

(* ===================================================================== *)
(** ** A sample extension *)
(* ===================================================================== *)

Module Sample.

(** An extension in which every call succeeds: constructors and the
    allocating methods hand out a handle numbered by the length of the
    log, every other call returns None. *)
Definition ext : extension :=
  fun lg c =>
    match c with
    | Construct cls _ => Ok (OHandle cls (len lg))
    | ClassMethod cls _ _ => Ok (OHandle cls (len lg))
    | Method (OHandle CudaRNImpl _) _ _ =>
        Ok (OHandle CudaRNVectorImpl (len lg))
    | Method _ _ _ => Ok ONone
    | Function _ _ => Ok ONone
    end.

(** numpy's conversion of a list or an array to an array of a given
    element type. *)
Definition to_array (value : pyobj) (dt : dtype) : outcome pyobj :=
  match value with
  | OList l => Ok (ONdarray dt l)
  | ONdarray _ l => Ok (ONdarray dt l)
  | OInt z => Ok (ONdarray dt [z])
  | _ => Raise TypeError
  end.

End Sample.

(* ===================================================================== *)
(** ** Facts about outcomes and lists *)
(* ===================================================================== *)

Module PyFacts.

Lemma raises_not_returns {A : Type} (c : outcome A) :
  raises c -> ~ returns c.
Proof. intros [e ->] [a H]; discriminate. Qed.

Lemma bind_Ok_inv {A B : Type} (c : outcome A) (k : A -> outcome B) b :
  bind c k = Ok b -> exists a, c = Ok a /\ k a = Ok b.
Proof. destruct c as [a|e]; simpl; [eauto | discriminate]. Qed.

Lemma list_mul_singleton {A : Type} (x : A) k :
  list_mul [x] k = repeat x (Z.to_nat k).
Proof.
  unfold list_mul. induction (Z.to_nat k) as [|m IH]; simpl; congruence.
Qed.

Lemma len_app {A : Type} (l1 l2 : list A) : len (l1 ++ l2) = len l1 + len l2.
Proof. unfold len. rewrite List.length_app. lia. Qed.

Lemma len_cons {A : Type} (x : A) (l : list A) : len (x :: l) = 1 + len l.
Proof. unfold len. simpl List.length. lia. Qed.

Lemma len_repeat {A : Type} (x : A) k : len (repeat x k) = Z.of_nat k.
Proof. unfold len. now rewrite repeat_length. Qed.

Lemma len_nonneg {A : Type} (l : list A) : 0 <= len l.
Proof. unfold len. lia. Qed.

Lemma len_list_mul {A : Type} (x : A) k : len (list_mul [x] k) = Z.max 0 k.
Proof. rewrite list_mul_singleton, len_repeat. lia. Qed.

Lemma len_one {A : Type} (l : list A) : len l = 1 -> exists x, l = [x].
Proof.
  destruct l as [|x [|y l]]; unfold len; simpl; intros H; try lia.
  now exists x.
Qed.

End PyFacts.


(* ===================================================================== *)
(** ** normalized_scalar_param_list *)
(* ===================================================================== *)

Module ParamListFacts.
Import Normalize PyFacts.

Lemma broadcast_len arr L out :
  0 < L -> np_broadcast_to arr L = Ok out -> len out = L.
Proof.
  unfold np_broadcast_to. intros HL.
  destruct (len arr =? L) eqn:E.
  - intros [= <-]. lia.
  - destruct arr as [|x [|y arr]]; try discriminate.
    intros [= <-]. rewrite len_repeat. lia.
Qed.

Lemma convert_all_len conv keep l out :
  convert_all conv keep l = Ok out -> len out = len l.
Proof.
  revert out. induction l as [|p l IH]; simpl; intros out H.
  - now inversion H.
  - apply bind_Ok_inv in H as (p' & _ & H).
    apply bind_Ok_inv in H as (rest' & Hr & H).
    inversion H; subst. rewrite !len_cons, (IH _ Hr). reflexivity.
Qed.

(** The two numpy generations build the same list. *)
Lemma fallback_agrees p L :
  0 < L -> fallback_list p L = np_broadcast_to (np_array_ndmin1 p) L.
Proof.
  intros HL.
  destruct p as [v|l]; unfold fallback_list, np_broadcast_to, np_array_ndmin1.
  - rewrite list_mul_singleton.
    change (len [v]) with 1.
    destruct (1 =? L) eqn:E.
    + apply Z.eqb_eq in E. subst L. destruct (np_isscalar v); reflexivity.
    + destruct (np_isscalar v); reflexivity.
  - cbv zeta. destruct (len l =? 1) eqn:E1.
    + apply Z.eqb_eq in E1. destruct (len_one _ E1) as [x ->].
      rewrite list_mul_singleton. change (len [x]) with 1.
      destruct (1 =? L) eqn:E; [|reflexivity].
      apply Z.eqb_eq in E. now subst L.
    + destruct (len l =? L) eqn:E; [reflexivity|].
      destruct l as [|x [|y l]]; try reflexivity.
      discriminate E1.
Qed.

Lemma param_list_unfold numpy p L keep :
  0 < L ->
  normalized_scalar_param_list numpy p L None keep
  = np_broadcast_to (np_array_ndmin1 p) L.
Proof.
  intros HL. unfold normalized_scalar_param_list.
  destruct (L <=? 0) eqn:E; [apply Z.leb_le in E; lia|].
  assert (H : (if numpy then np_broadcast_to (np_array_ndmin1 p) L
               else fallback_list p L)
              = np_broadcast_to (np_array_ndmin1 p) L).
  { destruct numpy; [reflexivity | now apply fallback_agrees]. }
  rewrite H.
  destruct (np_broadcast_to (np_array_ndmin1 p) L) as [out|e] eqn:B;
    simpl; [|reflexivity].
  apply broadcast_len in B; [|assumption].
  apply Z.eqb_eq in B. now rewrite B.
Qed.

(** C8.  For a target length [L >= 1] and no conversion function, with
    either numpy generation: a parameter that is not a sequence gives
    [[p] * L]; a sequence of length 1 gives its element [L] times; a
    sequence of length [L] is returned as a list, unchanged; a sequence
    of any other length raises ValueError; every returned list has
    length [L]; and the three calls named by the specification evaluate
    to [[5, 5, 5]], [[1, 2, 3]] and a ValueError. *)
Theorem C8_scalar_param_list (numpy : bool) (L : Z) (keep_none : bool) :
  1 <= L ->
  (forall v, normalized_scalar_param_list numpy (Single v) L None keep_none
             = Ok (repeat v (Z.to_nat L)))
  /\ (forall x, normalized_scalar_param_list numpy (Sequence [x]) L None
                                             keep_none
                = Ok (repeat x (Z.to_nat L)))
  /\ (forall l, len l = L ->
                normalized_scalar_param_list numpy (Sequence l) L None
                                             keep_none = Ok l)
  /\ (forall l, len l <> 1 -> len l <> L ->
                normalized_scalar_param_list numpy (Sequence l) L None
                                             keep_none = Raise ValueError)
  /\ (forall p conv out,
         normalized_scalar_param_list numpy p L conv keep_none = Ok out ->
         len out = L)
  /\ normalized_scalar_param_list numpy (Single (VInt 5)) 3 None keep_none
     = Ok [VInt 5; VInt 5; VInt 5]
  /\ normalized_scalar_param_list numpy (Sequence [VInt 1; VInt 2; VInt 3])
                                  3 None keep_none
     = Ok [VInt 1; VInt 2; VInt 3]
  /\ normalized_scalar_param_list numpy (Sequence [VInt 1; VInt 2])
                                  3 None keep_none
     = Raise ValueError.
Proof.
  intros HL.
  assert (single : forall x, np_broadcast_to [x] L = Ok (repeat x (Z.to_nat L))).
  { intros x. unfold np_broadcast_to. change (len [x]) with 1.
    destruct (1 =? L) eqn:E; [|reflexivity].
    apply Z.eqb_eq in E. now subst L. }
  repeat split.
  - intros v. rewrite param_list_unfold by lia. apply single.
  - intros x. rewrite param_list_unfold by lia. apply single.
  - intros l Hl. rewrite param_list_unfold by lia.
    unfold np_broadcast_to, np_array_ndmin1. apply Z.eqb_eq in Hl.
    now rewrite Hl.
  - intros l H1 HLn. rewrite param_list_unfold by lia.
    unfold np_broadcast_to, np_array_ndmin1.
    apply Z.eqb_neq in HLn. rewrite HLn.
    destruct l as [|x [|y l]]; try reflexivity.
    now elim H1.
  - intros p conv out. unfold normalized_scalar_param_list.
    destruct (L <=? 0); [discriminate|].
    intros H. apply bind_Ok_inv in H as (o & _ & H).
    destruct (len o =? L) eqn:E; simpl in H; [|discriminate].
    apply Z.eqb_eq in E.
    destruct conv as [conv|].
    + apply convert_all_len in H. congruence.
    + inversion H. congruence.
  - rewrite param_list_unfold by lia. reflexivity.
  - rewrite param_list_unfold by lia. reflexivity.
  - rewrite param_list_unfold by lia. reflexivity.
Qed.

Lemma C8_scalar_param_list_witness :
  1 <= 3
  /\ normalized_scalar_param_list true (Sequence [VInt 1; VInt 2; VInt 3])
                                  3 None true
     = Ok [VInt 1; VInt 2; VInt 3].
Proof.
  assert (H : 1 <= 3) by lia.
  split; [exact H|].
  destruct (C8_scalar_param_list true 3 true H) as (_ & _ & same & _).
  apply same. reflexivity.
Defined.

End ParamListFacts.

(* ===================================================================== *)
(** ** normalized_index_expression *)
(* ===================================================================== *)

Module IndexFacts.
Import Normalize PyFacts.

(** *** Searching a list *)

Section Search.
Variable p : index -> bool.

Lemma contains_app l1 l2 :
  contains p (l1 ++ l2) = contains p l1 || contains p l2.
Proof. apply existsb_app. Qed.

Lemma count_app l1 l2 : count p (l1 ++ l2) = count p l1 + count p l2.
Proof. unfold count. now rewrite filter_app, len_app. Qed.

Lemma count_nonneg l : 0 <= count p l.
Proof. apply len_nonneg. Qed.

Lemma count_zero l : contains p l = false -> count p l = 0.
Proof.
  unfold count, contains.
  induction l as [|x l IH]; simpl; [reflexivity|].
  destruct (p x); simpl; [discriminate | exact IH].
Qed.

Lemma count_pos l : contains p l = true -> 1 <= count p l.
Proof.
  unfold count, contains.
  induction l as [|x l IH]; simpl; [discriminate|].
  destruct (p x); simpl; intros H.
  - rewrite len_cons. pose proof (len_nonneg (filter p l)). lia.
  - auto.
Qed.

(** [indices.index(x)] cuts the list at the first match. *)
Lemma split_first l :
  contains p l = true ->
  exists x, p x = true
    /\ l = firstn (index_of p l) l ++ x :: skipn (S (index_of p l)) l
    /\ contains p (firstn (index_of p l) l) = false.
Proof.
  unfold contains.
  induction l as [|y l IH]; simpl; [discriminate|].
  destruct (p y) eqn:Py; simpl.
  - intros _. exists y. auto.
  - intros H. destruct (IH H) as (x & Px & El & Hpre).
    exists x. rewrite Py. simpl. repeat split; auto.
    f_equal. exact El.
Qed.

Lemma index_of_app pre x post :
  contains p pre = false -> p x = true ->
  index_of p (pre ++ x :: post) = List.length pre.
Proof.
  unfold contains. intros Hpre Px.
  induction pre as [|y pre IH]; simpl in *.
  - now rewrite Px.
  - apply orb_false_iff in Hpre as [Py Hpre]. rewrite Py. f_equal. auto.
Qed.
End Search.

Lemma firstn_exact {A : Type} (l1 l2 : list A) :
  firstn (List.length l1) (l1 ++ l2) = l1.
Proof. induction l1; simpl; congruence. Qed.

Lemma skipn_exact {A : Type} (l1 l2 : list A) x :
  skipn (S (List.length l1)) (l1 ++ x :: l2) = l2.
Proof. induction l1; simpl in *; congruence. Qed.

(** *** The ellipsis stages *)



Lemma fill_one ndim pre post :
  contains is_ellipsis pre = false -> contains is_ellipsis post = false ->
  fill_ellipsis ndim (pre ++ IEllipsis :: post)
  = Ok (pre ++ repeat full_slice (Z.to_nat (ndim - len pre - len post))
            ++ post).
Proof.
  intros Hpre Hpost. unfold fill_ellipsis.
  assert (Hc : contains is_ellipsis (pre ++ IEllipsis :: post) = true).
  { rewrite contains_app. simpl. now rewrite orb_true_r. }
  rewrite Hc.
  assert (Hn : count is_ellipsis (pre ++ IEllipsis :: post) = 1).
  { rewrite count_app, (count_zero _ _ Hpre).
    change (IEllipsis :: post) with ([IEllipsis] ++ post).
    rewrite count_app, (count_zero _ _ Hpost). reflexivity. }
  rewrite Hn. simpl (1 >? 1). cbv iota zeta.
  rewrite index_of_app by (assumption || reflexivity).
  rewrite firstn_exact, skipn_exact, list_mul_singleton.
  rewrite len_app, len_cons.
  replace (ndim - (len pre + (1 + len post)) + 1)
    with (ndim - len pre - len post) by lia.
  reflexivity.
Qed.

Lemma fill_absent ndim l :
  contains is_ellipsis l = false -> fill_ellipsis ndim l = Ok l.
Proof. intros H. unfold fill_ellipsis. now rewrite H. Qed.

Lemma fill_many ndim l :
  2 <= count is_ellipsis l -> fill_ellipsis ndim l = Raise ValueError.
Proof.
  intros H. unfold fill_ellipsis.
  destruct (contains is_ellipsis l) eqn:C.
  - destruct (count is_ellipsis l >? 1) eqn:G; [reflexivity|].
    rewrite Z.gtb_ltb in G. apply Z.ltb_ge in G. lia.
  - rewrite (count_zero _ _ C) in H. lia.
Qed.

(** Whatever [fill_ellipsis] returns starts from a list with at most
    one ellipsis, cut around it. *)
Lemma fill_inv ndim l f :
  fill_ellipsis ndim l = Ok f ->
  (contains is_ellipsis l = false /\ f = l)
  \/ exists pre post,
      l = pre ++ IEllipsis :: post
      /\ contains is_ellipsis pre = false
      /\ contains is_ellipsis post = false
      /\ f = pre ++ repeat full_slice (Z.to_nat (ndim - len pre - len post))
               ++ post.
Proof.
  intros H. destruct (contains is_ellipsis l) eqn:C.
  - right.
    destruct (split_first _ _ C) as (x & Px & El & Hpre).
    destruct x; try discriminate Px.
    set (pre := firstn (index_of is_ellipsis l) l) in *.
    set (post := skipn (S (index_of is_ellipsis l)) l) in *.
    exists pre, post.
    assert (Hpost : contains is_ellipsis post = false).
    { destruct (contains is_ellipsis post) eqn:Cp; [|reflexivity].
      exfalso. apply count_pos in Cp.
      assert (Hn : 2 <= count is_ellipsis l).
      { rewrite El, count_app.
        change (IEllipsis :: post) with ([IEllipsis] ++ post).
        rewrite count_app. change (count is_ellipsis [IEllipsis]) with 1.
        pose proof (count_nonneg is_ellipsis pre). lia. }
      rewrite (fill_many _ _ Hn) in H. discriminate. }
    repeat split; auto.
    rewrite El in H. rewrite fill_one in H by assumption.
    now inversion H.
  - left. rewrite fill_absent in H by assumption. now inversion H.
Qed.

Lemma contains_full p k :
  p full_slice = false -> contains p (repeat full_slice k) = false.
Proof. intros H. induction k; simpl; [|rewrite H]; auto. Qed.

Lemma fill_no_ellipsis ndim l f :
  fill_ellipsis ndim l = Ok f -> contains is_ellipsis f = false.
Proof.
  intros H.
  destruct (fill_inv _ _ _ H) as [[C ->]|(pre & post & _ & A & B & ->)].
  - exact C.
  - now rewrite !contains_app, A, B, contains_full.
Qed.

Lemma fill_append_len ndim l f :
  fill_ellipsis ndim (append_ellipsis ndim l) = Ok f -> ndim <= len f.
Proof.
  intros H.
  destruct (fill_inv _ _ _ H) as [[C ->]|(pre & post & E & _ & _ & ->)].
  - unfold append_ellipsis in *.
    destruct (len l <? ndim) eqn:Hl; simpl in *.
    + destruct (contains is_ellipsis l) eqn:Cl; simpl in *.
      * apply Z.ltb_lt in Hl. congruence.
      * rewrite contains_app in C. simpl in C.
        rewrite orb_true_r in C. discriminate.
    + apply Z.ltb_ge in Hl. exact Hl.
  - rewrite !len_app, len_repeat. lia.
Qed.

(** *** The loop over the integer entries *)

Lemma check_ints_rel b l shape t :
  check_ints b l shape = Ok t -> Forall2 (entry_rel b) l t.
Proof.
  revert shape t. induction l as [|x l IH]; intros shape t H.
  - destruct shape; inversion H; constructor.
  - destruct shape as [|n shape].
    + inversion H; subst. apply Forall2_flip, Forall2_impl with (R1 := eq).
      * intros ? ? <-. now left.
      * clear. induction (x :: l); constructor; auto.
    + simpl in H.
      apply bind_Ok_inv in H as (x' & Hx & H).
      apply bind_Ok_inv in H as (t' & Ht & H).
      inversion H; subst. constructor; [|eauto].
      destruct x as [i| | |]; try (inversion Hx; now left).
      destruct ((if i <? 0 then i + n else i) >=? n); [discriminate|].
      destruct b; inversion Hx; [right | now left].
      split; [reflexivity|]. eauto.
Qed.

Lemma check_ints_keep l shape t :
  check_ints false l shape = Ok t -> t = l.
Proof.
  intros H. apply check_ints_rel in H.
  induction H as [|x y l t R _ IH]; [reflexivity|].
  destruct R as [->|[? _]]; [now rewrite IH | discriminate].
Qed.

Lemma rel_len b l t : Forall2 (entry_rel b) l t -> len t = len l.
Proof. intros H. unfold len. now rewrite (Forall2_length H). Qed.


(** *** Unfolding a successful call *)

Lemma normalized_inv indices shape b t :
  normalized_index_expression indices shape b = Ok t ->
  exists l f,
    as_list indices = Ok l
    /\ fill_ellipsis (len shape) (append_ellipsis (len shape) l) = Ok f
    /\ check_ints b f shape = Ok t
    /\ any_caught t shape = false
    /\ contains is_none t = false
    /\ len t <= len shape.
Proof.
  unfold normalized_index_expression. intros H.
  apply bind_Ok_inv in H as (l & Hl & H).
  apply bind_Ok_inv in H as (f & Hf & H).
  apply bind_Ok_inv in H as (t' & Ht & H).
  destruct (any_caught t' shape) eqn:A; [discriminate|].
  destruct (contains is_none t') eqn:N; [discriminate|].
  destruct (len t' >? len shape) eqn:G; [discriminate|].
  inversion H; subst. exists l, f. repeat split; auto.
  rewrite Z.gtb_ltb in G. now apply Z.ltb_ge in G.
Qed.

Lemma check_ints_raise b l shape e :
  check_ints b l shape = Raise e -> e = IndexError.
Proof.
  revert shape. induction l as [|x l IH]; intros [|n shape] H;
    try discriminate H.
  simpl in H.
  destruct x as [i| | |]; simpl in H.
  - destruct ((if i <? 0 then i + n else i) >=? n).
    + now inversion H.
    + destruct b; simpl in H;
        (destruct (check_ints _ l shape) eqn:C;
         [discriminate | inversion H; subst; eauto]).
  - destruct (check_ints b l shape) eqn:C;
      [discriminate | inversion H; subst; eauto].
  - destruct (check_ints b l shape) eqn:C;
      [discriminate | inversion H; subst; eauto].
  - destruct (check_ints b l shape) eqn:C;
      [discriminate | inversion H; subst; eauto].
Qed.

(** A slice that the check of lines 252-254 catches is still there
    after the loop. *)
Lemma check_ints_caught b l shape t :
  check_ints b l shape = Ok t ->
  any_caught l shape = true -> any_caught t shape = true.
Proof.
  revert shape t. induction l as [|x l IH]; intros [|n shape] t H A;
    try discriminate A.
  simpl in H.
  apply bind_Ok_inv in H as (x' & Hx & H).
  apply bind_Ok_inv in H as (t' & Ht & H).
  inversion H; subst. simpl in *.
  apply orb_true_iff in A as [A|A].
  - destruct x; try discriminate A. inversion Hx; subst.
    simpl in *. now rewrite A.
  - rewrite (IH _ _ Ht A). apply orb_true_r.
Qed.

Lemma rel_none b l t :
  Forall2 (entry_rel b) l t ->
  contains is_none l = true -> contains is_none t = true.
Proof.
  induction 1 as [|x y l t R _ IH]; simpl; [auto|].
  intros H. apply orb_true_iff in H as [H|H].
  - destruct R as [->|(_ & i & j & -> & _)]; [|discriminate].
    now rewrite H.
  - rewrite (IH H). apply orb_true_r.
Qed.

Lemma rel_kinds b l t :
  Forall2 (entry_rel b) l t ->
  contains is_ellipsis l = false -> contains is_none t = false ->
  Forall (fun e => is_int e = true \/ is_slice e = true) t.
Proof.
  induction 1 as [|x y l t R _ IH]; simpl; intros E N; constructor.
  - apply orb_false_iff in E as [E _]. apply orb_false_iff in N as [N _].
    destruct R as [->|(_ & i & j & _ & ->)]; [|now right].
    destruct x; simpl in *; auto; discriminate.
  - apply orb_false_iff in E as [_ E]. apply orb_false_iff in N as [_ N].
    auto.
Qed.

Lemma fill_none ndim l f :
  fill_ellipsis ndim l = Ok f ->
  contains is_none l = true -> contains is_none f = true.
Proof.
  intros H N.
  destruct (fill_inv _ _ _ H) as [[_ ->]|(pre & post & -> & _ & _ & ->)].
  - exact N.
  - rewrite contains_app in N. simpl in N.
    rewrite !contains_app.
    apply orb_true_iff in N as [N|N]; rewrite N;
      [reflexivity | now rewrite !orb_true_r].
Qed.

(** *** The claims *)

(** C9.  Whenever normalized_index_expression returns, the tuple it
    returns has exactly [len(shape)] entries and each entry is an
    integer or a slice. *)
Theorem C9_result_shape (indices : index_expr) (shape : list Z)
        (int_to_slice : bool) (t : list index) :
  normalized_index_expression indices shape int_to_slice = Ok t ->
  len t = len shape
  /\ Forall (fun e => is_int e = true \/ is_slice e = true) t.
Proof.
  intros H.
  apply normalized_inv in H as (l & f & _ & Hf & Ht & _ & N & Hle).
  apply check_ints_rel in Ht.
  pose proof (rel_len _ _ _ Ht) as Hlen.
  pose proof (fill_append_len _ _ _ Hf) as Hge.
  split; [lia|].
  eapply rel_kinds; eauto using fill_no_ellipsis.
Qed.

Lemma C9_result_shape_witness :
  normalized_index_expression (Many [IInt 1; IEllipsis]) [3; 4; 5] true
  = Ok [ISlice (Some 1) (Some 2) None; full_slice; full_slice]
  /\ len [ISlice (Some 1) (Some 2) None; full_slice; full_slice]
     = len [3; 4; 5]
  /\ Forall (fun e => is_int e = true \/ is_slice e = true)
            [ISlice (Some 1) (Some 2) None; full_slice; full_slice].
Proof.
  split; [reflexivity|].
  apply (C9_result_shape (Many [IInt 1; IEllipsis]) [3; 4; 5] true).
  reflexivity.
Defined.


(** *** An expression that is a single entry *)















(** Once the ellipsis stage is through, a caught slice or a None entry
    ends the call in an exception. *)
Lemma rejected_after_fill shape b f :
  any_caught f shape = true \/ contains is_none f = true ->
  exists e,
    (indices <- check_ints b f shape ;;
     if any_caught indices shape then Raise ValueError
     else if contains is_none indices then Raise ValueError
     else if len indices >? len shape then Raise IndexError
     else Ok indices) = Raise e
    /\ (e = ValueError \/ e = IndexError).
Proof.
  intros H. destruct (check_ints b f shape) as [t|e] eqn:C; simpl.
  - exists ValueError. split; [|now left].
    destruct H as [A|N].
    + now rewrite (check_ints_caught _ _ _ _ C A).
    + apply check_ints_rel in C. rewrite (rel_none _ _ _ C N).
      now destruct (any_caught t shape).
  - exists e. split; [reflexivity|]. right.
    eapply check_ints_raise; eauto.
Qed.

(** C5, as the code has it.  The check of lines 252-254 is for "most
    common errors": the call raises (ValueError, or IndexError when an
    integer entry is out of bounds first) whenever, after the ellipsis
    has been expanded, one of the first [len(shape)] entries is a slice
    whose start equals its stop and is not None, or whose start equals
    the size of its axis; and it raises whenever the expression
    contains None (TypeError when the expression is None itself).
    Other slices that select nothing are not looked for. *)
Theorem C5_caught_slices_and_none (indices : index_expr) (shape : list Z)
        (int_to_slice : bool) :
  (forall l f,
      as_list indices = Ok l ->
      fill_ellipsis (len shape) (append_ellipsis (len shape) l) = Ok f ->
      any_caught f shape = true ->
      exists e,
        normalized_index_expression indices shape int_to_slice = Raise e
        /\ (e = ValueError \/ e = IndexError))
  /\ (forall l,
        as_list indices = Ok l ->
        contains is_none l = true ->
        exists e,
          normalized_index_expression indices shape int_to_slice = Raise e
          /\ (e = ValueError \/ e = IndexError))
  /\ normalized_index_expression (One INone) shape int_to_slice
     = Raise TypeError.
Proof.
  split; [|split].
  - intros l f Hl Hf A. unfold normalized_index_expression.
    rewrite Hl. cbv beta iota delta [bind]. rewrite Hf.
    apply rejected_after_fill. now left.
  - intros l Hl N. unfold normalized_index_expression.
    rewrite Hl. cbv beta iota delta [bind].
    assert (Na : contains is_none (append_ellipsis (len shape) l) = true).
    { unfold append_ellipsis.
      destruct ((len l <? len shape) && negb (contains is_ellipsis l));
        [|exact N].
      rewrite contains_app, N. reflexivity. }
    destruct (fill_ellipsis (len shape) (append_ellipsis (len shape) l))
      as [f|e] eqn:Hf.
    + apply rejected_after_fill. right. eapply fill_none; eauto.
    + exists ValueError. split; [|now left].
      unfold fill_ellipsis in Hf.
      destruct (contains is_ellipsis (append_ellipsis (len shape) l));
        [|discriminate].
      destruct (count is_ellipsis (append_ellipsis (len shape) l) >? 1);
        [now inversion Hf | discriminate].
  - reflexivity.
Qed.

Lemma C5_caught_slices_and_none_witness :
  (exists e,
      normalized_index_expression
        (Many [ISlice (Some 1) (Some 1) None; IEllipsis]) [3; 4] false
      = Raise e
      /\ (e = ValueError \/ e = IndexError))
  /\ (exists e,
        normalized_index_expression (Many [IInt 0; INone]) [3; 4] false
        = Raise e
        /\ (e = ValueError \/ e = IndexError)).
Proof.
  split.
  - destruct (C5_caught_slices_and_none
                (Many [ISlice (Some 1) (Some 1) None; IEllipsis])
                [3; 4] false) as (caught & _).
    apply (caught [ISlice (Some 1) (Some 1) None; IEllipsis]
                  [ISlice (Some 1) (Some 1) None; full_slice]);
      reflexivity.
  - destruct (C5_caught_slices_and_none (Many [IInt 0; INone])
                                        [3; 4] false) as (_ & none & _).
    apply (none [IInt 0; INone]); reflexivity.
Defined.

(** C5, as stated, fails: [slice(2, 1)] selects no element of an axis of
    size 3, and [normalized_index_expression([slice(2, 1)], shape=(3,))]
    returns it. *)
Lemma C5_empty_slice_returned :
  selects_nothing (ISlice (Some 2) (Some 1) None) 3
  /\ normalized_index_expression (Many [ISlice (Some 2) (Some 1) None])
                                 [3] false
     = Ok [ISlice (Some 2) (Some 1) None].
Proof. split; reflexivity. Qed.

(** *** Integer entries on one axis *)

Lemma single_axis_unfold i n b :
  normalized_index_expression (Many [IInt i]) [n] b
  = (let idx := if i <? 0 then i + n else i in
     if idx >=? n then Raise IndexError
     else if b then Ok [ISlice (Some idx) (Some (idx + 1)) None]
          else Ok [IInt i]).
Proof.
  unfold normalized_index_expression. simpl as_list.
  cbv beta iota delta [bind].
  change (append_ellipsis (len [n]) [IInt i]) with [IInt i].
  change (fill_ellipsis (len [n]) [IInt i]) with (Ok [IInt i]).
  cbn [check_ints bind]. cbv zeta.
  set (idx := if i <? 0 then i + n else i).
  destruct (idx >=? n) eqn:G; [reflexivity|].
  destruct b; [|reflexivity].
  rewrite Z.geb_leb in G. apply Z.leb_gt in G.
  assert (E1 : (idx =? idx + 1) = false) by (apply Z.eqb_neq; lia).
  assert (E2 : (idx =? n) = false) by (apply Z.eqb_neq; lia).
  cbn [bind any_caught caught_slice opt_eqb is_slice contains existsb
       is_none andb orb negb].
  rewrite E1, E2. reflexivity.
Qed.

(** An index at or above the axis size is rejected. *)
Lemma index_above_rejected i n b :
  0 <= i -> n <= i ->
  normalized_index_expression (Many [IInt i]) [n] b = Raise IndexError.
Proof.
  intros H0 Hn. rewrite single_axis_unfold. cbv zeta.
  destruct (i <? 0) eqn:L; [apply Z.ltb_lt in L; lia|].
  destruct (i >=? n) eqn:G; [reflexivity|].
  rewrite Z.geb_leb in G. apply Z.leb_gt in G. lia.
Qed.

(** With [int_to_slice], an index in [-n, n) becomes the slice of
    length one at its wrapped position. *)
Lemma index_in_range_sliced i n :
  - n <= i < n ->
  normalized_index_expression (Many [IInt i]) [n] true
  = Ok [ISlice (Some (i mod n)) (Some (i mod n + 1)) None].
Proof.
  intros H. rewrite single_axis_unfold. cbv zeta.
  destruct (i <? 0) eqn:L.
  - apply Z.ltb_lt in L.
    assert (E : i mod n = i + n).
    { symmetry. apply Z.mod_unique with (q := -1); lia. }
    rewrite E.
    destruct (i + n >=? n) eqn:G; [|reflexivity].
    rewrite Z.geb_leb in G. apply Z.leb_le in G. lia.
  - apply Z.ltb_ge in L. rewrite Z.mod_small by lia.
    destruct (i >=? n) eqn:G; [|reflexivity].
    rewrite Z.geb_leb in G. apply Z.leb_le in G. lia.
Qed.

(** No negative index is ever rejected, whatever the axis size. *)
Lemma negative_index_accepted i n b :
  i < 0 ->
  normalized_index_expression (Many [IInt i]) [n] b
  = Ok [if b then ISlice (Some (i + n)) (Some (i + n + 1)) None
        else IInt i].
Proof.
  intros H. rewrite single_axis_unfold. cbv zeta.
  apply Z.ltb_lt in H. rewrite H.
  destruct (i + n >=? n) eqn:G.
  - rewrite Z.geb_leb in G. apply Z.leb_le in G. apply Z.ltb_lt in H. lia.
  - now destruct b.
Qed.

(** C3.  The index -5 lies outside [-3, 3), yet on an axis of size 3 it
    is not rejected: the call returns [(-5,)], and with
    [int_to_slice=True] it returns [(slice(-2, -1),)].  Only the upper
    bound is tested after the wrap-around. *)
Theorem C3_index_below_range_returned :
  normalized_index_expression (Many [IInt (-5)]) [3] false
  = Ok [IInt (-5)]
  /\ normalized_index_expression (Many [IInt (-5)]) [3] true
     = Ok [ISlice (Some (-2)) (Some (-1)) None].
Proof. split; reflexivity. Qed.

End IndexFacts.


(* ===================================================================== *)
(** ** The space wrappers *)
(* ===================================================================== *)

Module SpaceFacts.

Ltac run := unfold bindM, call, lift, ret, raise; cbn [fst snd].

Lemma dtype_beq_eq d1 d2 : dtype_beq d1 d2 = true <-> d1 = d2.
Proof. split; [|intros <-; now destruct d1]. destruct d1, d2; (reflexivity || discriminate). Qed.

Lemma space_class_beq_eq c1 c2 : ODL.space_class_beq c1 c2 = true <-> c1 = c2.
Proof. destruct c1, c2; split; (reflexivity || discriminate). Qed.

(** [CudaFn.dtypes] holds exactly the element types that the
    specification enumerates, on either platform. *)
Lemma dtypes_supported long64 d :
  exists table,
    ODL.dtypes long64 = Ok table
    /\ (ODL.spec_supported_dtype d = true ->
        exists impl, ODL.dict_get dtype_beq table d = Some impl)
    /\ (ODL.spec_supported_dtype d = false ->
        ODL.dict_get dtype_beq table d = None).
Proof.
  destruct long64; eexists; (split; [reflexivity|]);
    destruct d; split; intros H; try discriminate H;
      (reflexivity || (eexists; reflexivity)).
Qed.

Lemma np_dtype_builtin_supported long64 spec d :
  ODL.np_dtype long64 spec = Ok d ->
  (forall d', spec <> ODL.OfDtype d') ->
  ODL.spec_supported_dtype d = true.
Proof.
  destruct spec as [d'| | |]; simpl; intros H N.
  - now elim (N d').
  - now inversion H.
  - inversion H. now destruct long64.
  - discriminate.
Qed.

(** *** Construction of a space *)

Lemma CudaFn_rejects_dim long64 cls dim spec lg :
  ODL.spec_positive_integer dim = false ->
  ODL.CudaFn__init__ long64 cls dim spec lg = (Raise TypeError, lg).
Proof.
  destruct dim; try reflexivity. simpl. intros H.
  apply Z.leb_gt in H. unfold ODL.CudaFn__init__.
  apply Z.ltb_lt in H. now rewrite H.
Qed.

Lemma CudaFn_rejects_dtype long64 cls dim spec lg :
  (forall d, ODL.np_dtype long64 spec = Ok d ->
             ODL.spec_supported_dtype d = false) ->
  ODL.CudaFn__init__ long64 cls dim spec lg = (Raise TypeError, lg).
Proof.
  intros H. destruct dim; try reflexivity.
  unfold ODL.CudaFn__init__. destruct (z <? 1); [reflexivity|]. run.
  destruct (ODL.np_dtype long64 spec) as [d|e] eqn:D.
  - destruct (dtypes_supported long64 d) as (table & T & _ & no).
    rewrite T, (no (H d eq_refl)). reflexivity.
  - destruct spec; try discriminate D. inversion D. reflexivity.
Qed.

Lemma CudaFn_accepts long64 cls n spec d lg :
  1 <= n -> ODL.np_dtype long64 spec = Ok d ->
  ODL.spec_supported_dtype d = true ->
  exists impl,
    ODL.CudaFn__init__ long64 cls (OInt n) spec lg
    = (Ok (ODL.mkCudaFn cls ODL.RealNumbers n d impl), lg).
Proof.
  intros Hn D S. unfold ODL.CudaFn__init__.
  destruct (n <? 1) eqn:L; [apply Z.ltb_lt in L; lia|]. run.
  rewrite D.
  destruct (dtypes_supported long64 d) as (table & T & yes & _).
  destruct (yes S) as [impl I]. rewrite T, I. now exists impl.
Qed.

Lemma CudaRN_forwards PyCuda n lg :
  RL.CudaRN__init__ PyCuda n lg
  = (match PyCuda lg (Construct CudaRNImpl [OInt n]) with
     | Ok h => Ok (RL.mkCudaRN n ODL.RealNumbers h)
     | Raise e => Raise e
     end,
     lg ++ [Construct CudaRNImpl [OInt n]]).
Proof.
  unfold RL.CudaRN__init__. run.
  now destruct (PyCuda lg (Construct CudaRNImpl [OInt n])).
Qed.

(** C2, as the code has it.  [CudaFn] (and [CudaRn]): a dimension that
    is not a positive integer, a dtype that numpy does not understand and
    a dtype outside the enumerated set each raise TypeError with no call
    into the extension; a positive integer [n] with a supported dtype
    gives a space of dimension [n], again with no native call.  [CudaRN]
    does not validate: for every integer [n] the argument goes to the
    native [CudaRNImpl] constructor; when that call returns, the
    construction returns a space that holds what the call returned and
    has [n] as its dimension; when that call raises, the construction
    raises the same exception; so the construction succeeds exactly when
    the call returns. *)
Theorem C2_space_construction (long64 : bool) (PyCuda : extension) :
  (forall cls dim spec lg,
      ODL.spec_positive_integer dim = false ->
      ODL.CudaFn__init__ long64 cls dim spec lg = (Raise TypeError, lg))
  /\ (forall cls dim spec lg,
        (forall d, ODL.np_dtype long64 spec = Ok d ->
                   ODL.spec_supported_dtype d = false) ->
        ODL.CudaFn__init__ long64 cls dim spec lg = (Raise TypeError, lg))
  /\ (forall cls n spec d lg,
        1 <= n -> ODL.np_dtype long64 spec = Ok d ->
        ODL.spec_supported_dtype d = true ->
        exists S,
          ODL.CudaFn__init__ long64 cls (OInt n) spec lg = (Ok S, lg)
          /\ ODL.dim S = n /\ ODL._dtype S = d /\ ODL.class_of S = cls)
  /\ (forall n lg,
        snd (RL.CudaRN__init__ PyCuda n lg)
        = lg ++ [Construct CudaRNImpl [OInt n]]
        /\ forall h,
            PyCuda lg (Construct CudaRNImpl [OInt n]) = Ok h ->
            exists S,
              fst (RL.CudaRN__init__ PyCuda n lg) = Ok S
              /\ RL.dimension S = n)
  /\ (forall n lg,
        (forall h,
            PyCuda lg (Construct CudaRNImpl [OInt n]) = Ok h ->
            RL.CudaRN__init__ PyCuda n lg
            = (Ok (RL.mkCudaRN n ODL.RealNumbers h),
               lg ++ [Construct CudaRNImpl [OInt n]]))
        /\ (forall e,
              PyCuda lg (Construct CudaRNImpl [OInt n]) = Raise e ->
              RL.CudaRN__init__ PyCuda n lg
              = (Raise e, lg ++ [Construct CudaRNImpl [OInt n]]))
        /\ (returns (fst (RL.CudaRN__init__ PyCuda n lg))
            <-> returns (PyCuda lg (Construct CudaRNImpl [OInt n])))).
Proof.
  split; [|split; [|split; [|split]]].
  - intros. now apply CudaFn_rejects_dim.
  - intros. now apply CudaFn_rejects_dtype.
  - intros cls n spec d lg Hn D S.
    destruct (CudaFn_accepts long64 cls n spec d lg Hn D S) as [impl E].
    eexists. split; [exact E|]. now repeat split.
  - intros n lg. rewrite CudaRN_forwards. split; [reflexivity|].
    intros h ->. eexists. split; reflexivity.
  - intros n lg. unfold RL.CudaRN__init__, bindM, call, ret.
    split; [|split].
    + intros h ->. reflexivity.
    + intros e ->. reflexivity.
    + destruct (PyCuda lg (Construct CudaRNImpl [OInt n])) as [h|e];
        cbn [fst]; split; intros [x Hx];
          (discriminate Hx || (eexists; reflexivity)).
Qed.

Lemma C2_space_construction_witness :
  ODL.spec_positive_integer (OInt 0) = false
  /\ ODL.new_CudaFn true (OInt 0) ODL.default_dtype [] = (Raise TypeError, [])
  /\ ODL.new_CudaFn true (OInt 3) (ODL.OfDtype complex64) []
     = (Raise TypeError, [])
  /\ (exists S,
        ODL.new_CudaFn true (OInt 3) (ODL.OfDtype uint8) [] = (Ok S, [])
        /\ ODL.dim S = 3 /\ ODL._dtype S = uint8
        /\ ODL.class_of S = ODL.CudaFn_class)
  /\ (exists S,
        fst (RL.CudaRN__init__ Sample.ext 3 []) = Ok S
        /\ RL.dimension S = 3)
  /\ RL.CudaRN__init__ Sample.ext 0 []
     = (Ok (RL.mkCudaRN 0 ODL.RealNumbers (OHandle CudaRNImpl 0)),
        [Construct CudaRNImpl [OInt 0]])
  /\ RL.CudaRN__init__ (fun _ _ => Raise MemoryError) 3 []
     = (Raise MemoryError, [Construct CudaRNImpl [OInt 3]]).
Proof.
  destruct (C2_space_construction true Sample.ext)
    as (bad_dim & bad_dtype & good & rl & rl_exact).
  split; [reflexivity|].
  split; [apply bad_dim; reflexivity|].
  split.
  { apply bad_dtype. intros d H. inversion H. reflexivity. }
  split.
  { apply (good ODL.CudaFn_class 3 (ODL.OfDtype uint8) uint8 []);
      [lia | reflexivity | reflexivity]. }
  split.
  { apply (proj2 (rl 3 []) (OHandle CudaRNImpl 0)). reflexivity. }
  split.
  { apply (proj1 (rl_exact 0 [])). reflexivity. }
  destruct (C2_space_construction true (fun _ _ => Raise MemoryError))
    as (_ & _ & _ & _ & raising).
  apply (proj1 (proj2 (raising 3 []))). reflexivity.
Defined.

(** C2, as stated, fails on [CudaRN]: [CudaRN(-1)] raises nothing at the
    Python layer; the first thing it does is to call the native
    constructor [CudaRNImpl(-1)], and with an extension that accepts the
    call the space exists with [n = -1]. *)
Lemma C2_CudaRN_not_validated :
  RL.CudaRN__init__ Sample.ext (-1) []
  = (Ok (RL.mkCudaRN (-1) ODL.RealNumbers (OHandle CudaRNImpl 0)),
     [Construct CudaRNImpl [OInt (-1)]]).
Proof. reflexivity. Qed.

(** *** Equality of spaces *)

(** C6, as the code has it.  Two [CudaFn] spaces are equal exactly when
    they are of the same class ([type(self) == type(other)]), the same
    dimension and the same dtype; [==] is [equals] and [!=] its negation;
    an object that is not a space is never equal to one.  Two [CudaRN]
    spaces, which have no dtype, are equal exactly when their dimensions
    agree. *)
Theorem C6_space_equality :
  (forall S1 S2,
      ODL.equals S1 (ODL.Space S2) = true
      <-> (ODL.class_of S1 = ODL.class_of S2
           /\ ODL.dim S1 = ODL.dim S2
           /\ ODL._dtype S1 = ODL._dtype S2))
  /\ (forall S1 other,
        (ODL.space_eq S1 other = true <-> ODL.equals S1 other = true)
        /\ (ODL.space_ne S1 other = false <-> ODL.equals S1 other = true))
  /\ (forall S1 o, ODL.equals S1 (ODL.Other o) = false)
  /\ (forall S1 S2,
        RL.equals S1 (RL.Space S2) = true
        <-> RL.dimension S1 = RL.dimension S2)
  /\ (forall S1 o, RL.equals S1 (RL.Other o) = false).
Proof.
  split; [|split; [|split; [|split]]].
  - intros S1 S2. unfold ODL.equals.
    rewrite !andb_true_iff, space_class_beq_eq, dtype_beq_eq, Z.eqb_eq.
    tauto.
  - intros S1 other. unfold ODL.space_eq, ODL.space_ne.
    destruct (ODL.equals S1 other); simpl; split; split; auto.
  - reflexivity.
  - intros S1 S2. unfold RL.equals, RL.dimension. apply Z.eqb_eq.
  - reflexivity.
Qed.

Lemma C6_space_equality_witness :
  ODL.equals (ODL.mkCudaFn ODL.CudaRn_class ODL.RealNumbers 3 float32
                           CudaVectorFloat32)
             (ODL.Space (ODL.mkCudaFn ODL.CudaRn_class ODL.RealNumbers 3
                                      float32 CudaVectorFloat32))
  = true
  /\ RL.equals (RL.mkCudaRN 3 ODL.RealNumbers (OHandle CudaRNImpl 0))
               (RL.Space (RL.mkCudaRN 3 ODL.RealNumbers
                                      (OHandle CudaRNImpl 1)))
     = true.
Proof.
  destruct C6_space_equality as (odl & _ & _ & rl & _).
  split.
  - apply odl. repeat split.
  - apply rl. reflexivity.
Defined.

(** C6, as stated, fails: [CudaFn(3)] and [CudaRn(3)] have the same
    dimension and the same dtype (float32), and are not equal, because
    their classes differ. *)
Lemma C6_same_dim_dtype_not_equal :
  let S1 := ODL.mkCudaFn ODL.CudaFn_class ODL.RealNumbers 3 float32
                         CudaVectorFloat32 in
  let S2 := ODL.mkCudaFn ODL.CudaRn_class ODL.RealNumbers 3 float32
                         CudaVectorFloat32 in
  ODL.new_CudaFn true (OInt 3) ODL.default_dtype [] = (Ok S1, [])
  /\ ODL.new_CudaRn true (OInt 3) [] = (Ok S2, [])
  /\ ODL.dim S1 = ODL.dim S2
  /\ ODL._dtype S1 = ODL._dtype S2
  /\ ODL.equals S1 (ODL.Space S2) = false.
Proof. repeat split. Qed.

End SpaceFacts.


(* ===================================================================== *)
(** ** The vector wrappers and the forwarders *)
(* ===================================================================== *)

Module VectorFacts.

Ltac run := unfold bindM, call, lift, ret, raise; cbn [fst snd].

(** *** CudaFn.Vector and CudaFn.element *)


Lemma new_Vector_match S d :
  isinstance d (ODL._vector_impl S) = true ->
  ODL.new_Vector S d = Ok (ODL.mkVector S (Some d)).
Proof.
  intros H. unfold ODL.new_Vector, ODL.Vector__init__. now rewrite H.
Qed.

Lemma isinstance_handle cls id : isinstance (OHandle cls id) cls = true.
Proof. now destruct cls. Qed.

(** C10.  [S.element(inp, data_ptr)] with both arguments given raises
    TypeError, and no call into the extension (hence no construction of a
    vector) precedes it.  [S.element()] calls the native constructor of
    the space's implementation type with [S.dim]; when that returns a
    handle, the result is a vector of [S] that wraps this handle, of
    length [S.dim], and nothing is written into it. *)
Theorem C10_element (cuda : extension)
        (np_asarray : pyobj -> dtype -> outcome pyobj) (S : ODL.CudaFn) :
  (forall inp data_ptr lg,
      is_None inp = false -> is_None data_ptr = false ->
      ODL.element cuda np_asarray S inp data_ptr lg = (Raise TypeError, lg))
  /\ (forall lg id,
        cuda lg (Construct (ODL._vector_impl S) [OInt (ODL.dim S)])
        = Ok (OHandle (ODL._vector_impl S) id) ->
        exists v,
          ODL.element cuda np_asarray S ONone ONone lg
          = (Ok v, lg ++ [Construct (ODL._vector_impl S) [OInt (ODL.dim S)]])
          /\ ODL.space v = S
          /\ ODL._data v = Some (OHandle (ODL._vector_impl S) id)
          /\ ODL.Vector__len__ v = ODL.dim S).
Proof.
  split.
  - intros inp data_ptr lg Hi Hp. unfold ODL.element.
    now rewrite Hi, Hp.
  - intros lg id H. unfold ODL.element, ODL.element_empty. simpl. run.
    rewrite H.
    rewrite new_Vector_match by apply isinstance_handle.
    eexists. split; [reflexivity|]. now repeat split.
Qed.

Lemma C10_element_witness :
  let S := ODL.mkCudaFn ODL.CudaFn_class ODL.RealNumbers 3 float32
                        CudaVectorFloat32 in
  ODL.element Sample.ext Sample.to_array S (OList [1; 2; 3]) (OInt 4096) []
  = (Raise TypeError, [])
  /\ exists v,
      ODL.element Sample.ext Sample.to_array S ONone ONone []
      = (Ok v, [Construct CudaVectorFloat32 [OInt 3]])
      /\ ODL.space v = S
      /\ ODL._data v = Some (OHandle CudaVectorFloat32 0)
      /\ ODL.Vector__len__ v = 3.
Proof.
  intros S.
  destruct (C10_element Sample.ext Sample.to_array S) as (both & neither).
  split.
  - apply both; reflexivity.
  - apply (neither [] 0). reflexivity.
Defined.

(** *** CudaRN.Vector *)

Section RLVector.
Variable PyCuda : extension.
Variable np_array : pyobj -> dtype -> outcome pyobj.





Hypothesis PyCuda_returns : forall lg c, returns (PyCuda lg c).
(** A list of numbers converts to an array. *)
Hypothesis np_array_list :
  forall l, exists elts, np_array (OList l) float64 = Ok (ONdarray float64 elts).



End RLVector.





(** *** sum *)

(** The module-level [sum] of odl/space/cuda.py passes the vector's
    handle to [cuda.sum] and returns what that returns. *)
Lemma ODL_sum_forwards cuda v h lg :
  ODL._data v = Some h ->
  ODL.sum cuda v lg
  = (cuda lg (Function "cuda.sum" [h]), lg ++ [Function "cuda.sum" [h]]).
Proof.
  intros H. unfold ODL.sum, ODL.data. rewrite H. reflexivity.
Qed.

(** C4.  The module-level [sum] of odl/space/cuda.py makes one native
    call, [cuda.sum] on the handle of its argument, and returns the
    outcome of that call.  The lambda behind the [sum] property of
    [CudaRN] makes one native call as well, but to [RLcpp.PyCuda.abs]
    with the handle of its input: it does not reach the extension's
    [sum]. *)
Theorem C4_sum_forwarding (cuda PyCuda : extension) (F : ODL.CudaFn)
        (h : pyobj) (R : RL.CudaRN) (input output : RL.Vector) (lg : log) :
  ODL.sum cuda (ODL.mkVector F (Some h)) lg
  = (cuda lg (Function "cuda.sum" [h]), lg ++ [Function "cuda.sum" [h]])
  /\ RL.sum PyCuda R input output lg
     = (PyCuda lg (Function "RLcpp.PyCuda.abs" [RL.vimpl input]),
        lg ++ [Function "RLcpp.PyCuda.abs" [RL.vimpl input]])
  /\ Function "RLcpp.PyCuda.abs" [RL.vimpl input]
     <> Function "RLcpp.PyCuda.sum" [RL.vimpl input].
Proof.
  split; [|split].
  - apply ODL_sum_forwards. reflexivity.
  - reflexivity.
  - discriminate.
Qed.

End VectorFacts.


(* ===================================================================== *)
(** ** More on normalized_scalar_param_list *)
(* ===================================================================== *)

Module ParamListMore.
Import Normalize PyFacts ParamListFacts.

(** What the conversion loop does to one entry. *)
Lemma convert_all_map f keep l :
  convert_all (fun v => Ok (f v)) keep l
  = Ok (map (fun v => match v with
                      | VNone => if keep then VNone else f VNone
                      | _ => f v
                      end) l).
Proof.
  induction l as [|p l IH]; simpl; [reflexivity|].
  rewrite IH. destruct p; simpl; try reflexivity. now destruct keep.
Qed.

Lemma convert_all_ext conv1 conv2 l :
  (forall v, v <> VNone -> conv1 v = conv2 v) ->
  convert_all conv1 true l = convert_all conv2 true l.
Proof.
  intros H. induction l as [|p l IH]; simpl; [reflexivity|].
  rewrite IH. destruct p; try reflexivity; rewrite H; congruence.
Qed.

Lemma convert_all_first_failure conv keep l1 p l2 e :
  Forall (fun q => (q = VNone /\ keep = true) \/ returns (conv q)) l1 ->
  conv p = Raise e -> (p <> VNone \/ keep = false) ->
  convert_all conv keep (l1 ++ p :: l2) = Raise e.
Proof.
  intros H1 Hp Hk. induction H1 as [|q l1 Hq _ IH]; simpl.
  - destruct p; try (now rewrite Hp).
    destruct Hk as [Hk| ->]; [now elim Hk | now rewrite Hp].
  - rewrite IH.
    destruct Hq as [[-> ->]|[r Hr]]; [reflexivity|].
    destruct q; try (now rewrite Hr). destruct keep; now rewrite ?Hr.
Qed.

(** The list that the call builds before any conversion. *)
Lemma param_list_split numpy p L conv keep :
  0 < L ->
  normalized_scalar_param_list numpy p L conv keep
  = (out_list <- np_broadcast_to (np_array_ndmin1 p) L ;;
     match conv with
     | None => Ok out_list
     | Some c => convert_all c keep out_list
     end).
Proof.
  intros HL. unfold normalized_scalar_param_list.
  destruct (L <=? 0) eqn:E; [apply Z.leb_le in E; lia|].
  assert (H : (if numpy then np_broadcast_to (np_array_ndmin1 p) L
               else fallback_list p L)
              = np_broadcast_to (np_array_ndmin1 p) L).
  { destruct numpy; [reflexivity | now apply fallback_agrees]. }
  rewrite H.
  destruct (np_broadcast_to (np_array_ndmin1 p) L) as [out|e] eqn:B;
    simpl; [|reflexivity].
  apply broadcast_len in B; [|assumption].
  apply Z.eqb_eq in B. now rewrite B.
Qed.

(** X1.  The branch for a numpy without [broadcast_to] gives the same
    outcome as the main branch, for every parameter, length, conversion
    and [keep_none]. *)
Theorem X1_numpy_generations_agree (p : param) (L : Z)
        (conv : option (value -> outcome value)) (keep_none : bool) :
  normalized_scalar_param_list false p L conv keep_none
  = normalized_scalar_param_list true p L conv keep_none.
Proof.
  destruct (Z.leb_spec L 0) as [H|H].
  - unfold normalized_scalar_param_list.
    apply Z.leb_le in H. now rewrite H.
  - now rewrite !param_list_split.
Qed.

(** X2.  A conversion that never raises is applied to every entry of the
    broadcast list, in place; an entry that is None is converted only
    when [keep_none] is false. *)
Theorem X2_conversion_elementwise (numpy : bool) (p : param) (L : Z)
        (f : value -> value) (keep_none : bool) (out : list value) :
  normalized_scalar_param_list numpy p L None keep_none = Ok out ->
  normalized_scalar_param_list numpy p L (Some (fun v => Ok (f v))) keep_none
  = Ok (map (fun v => match v with
                      | VNone => if keep_none then VNone else f VNone
                      | _ => f v
                      end) out).
Proof.
  destruct (Z.leb_spec L 0) as [H|H].
  - unfold normalized_scalar_param_list.
    apply Z.leb_le in H. rewrite H. discriminate.
  - rewrite !param_list_split by assumption.
    destruct (np_broadcast_to (np_array_ndmin1 p) L) as [o|e]; simpl;
      [|discriminate].
    intros [= ->]. apply convert_all_map.
Qed.

Lemma X2_conversion_elementwise_witness :
  normalized_scalar_param_list true (Sequence [VInt 1; VNone; VInt 3]) 3 None
                               true
  = Ok [VInt 1; VNone; VInt 3]
  /\ normalized_scalar_param_list
       true (Sequence [VInt 1; VNone; VInt 3]) 3
       (Some (fun v => Ok (match v with VInt z => VInt (z + 1) | _ => VInt 0
                           end))) true
     = Ok [VInt 2; VNone; VInt 4].
Proof.
  split; [reflexivity|].
  apply (X2_conversion_elementwise
           true (Sequence [VInt 1; VNone; VInt 3]) 3
           (fun v => match v with VInt z => VInt (z + 1) | _ => VInt 0 end)
           true [VInt 1; VNone; VInt 3]).
  reflexivity.
Defined.

(** X3.  With [keep_none] set, [param_conv] is never applied to None:
    two conversions that agree on every value other than None give the
    same outcome. *)
Theorem X3_none_never_converted (numpy : bool) (p : param) (L : Z)
        (conv1 conv2 : value -> outcome value) :
  (forall v, v <> VNone -> conv1 v = conv2 v) ->
  normalized_scalar_param_list numpy p L (Some conv1) true
  = normalized_scalar_param_list numpy p L (Some conv2) true.
Proof.
  intros H. destruct (Z.leb_spec L 0) as [HL|HL].
  - unfold normalized_scalar_param_list.
    apply Z.leb_le in HL. now rewrite HL.
  - rewrite !param_list_split by assumption.
    destruct (np_broadcast_to (np_array_ndmin1 p) L) as [o|e]; simpl;
      [|reflexivity].
    now apply convert_all_ext.
Qed.

Lemma X3_none_never_converted_witness :
  normalized_scalar_param_list
    true (Sequence [VInt 1; VNone]) 2
    (Some (fun v => match v with VNone => Raise TypeError | _ => Ok v end))
    true
  = normalized_scalar_param_list true (Sequence [VInt 1; VNone]) 2
                                 (Some (fun v => Ok v)) true.
Proof.
  apply X3_none_never_converted.
  intros v Hv. destruct v; try reflexivity. now elim Hv.
Defined.

(** X4.  The exception of the first conversion that fails is the
    exception of the call: when the entries before [q] are converted (or
    kept, being None under [keep_none]) and [param_conv q] raises [e]
    for an entry [q] that is to be converted, the call raises [e]. *)
Theorem X4_conversion_failure_propagates (numpy : bool) (L : Z)
        (conv : value -> outcome value) (keep_none : bool)
        (l1 l2 : list value) (q : value) (e : exn) :
  len (l1 ++ q :: l2) = L ->
  Forall (fun v => (v = VNone /\ keep_none = true) \/ returns (conv v)) l1 ->
  conv q = Raise e -> (q <> VNone \/ keep_none = false) ->
  normalized_scalar_param_list numpy (Sequence (l1 ++ q :: l2)) L (Some conv)
                               keep_none
  = Raise e.
Proof.
  intros HL H1 Hq Hk.
  assert (0 < L).
  { rewrite <- HL, len_app, len_cons.
    pose proof (len_nonneg l1). pose proof (len_nonneg l2). lia. }
  rewrite param_list_split by assumption.
  unfold np_broadcast_to, np_array_ndmin1.
  apply Z.eqb_eq in HL. rewrite HL. simpl.
  now apply convert_all_first_failure.
Qed.

Lemma X4_conversion_failure_propagates_witness :
  normalized_scalar_param_list
    true (Sequence ([VNone; VInt 1] ++ VStr "x" :: [VInt 2])) 4
    (Some (fun v => match v with VInt _ => Ok v | _ => Raise ValueError end))
    true
  = Raise ValueError.
Proof.
  apply X4_conversion_failure_propagates.
  - reflexivity.
  - constructor; [left; split; reflexivity|].
    constructor; [right; exists (VInt 1); reflexivity|].
    constructor.
  - reflexivity.
  - left. discriminate.
Defined.

End ParamListMore.


(* ===================================================================== *)
(** ** More on normalized_index_expression *)
(* ===================================================================== *)

Module IndexMore.
Import Normalize PyFacts IndexFacts.

(** *** The loop, once more *)

(** With [int_to_slice], no integer is left among the entries that the
    loop visits. *)
Lemma check_ints_no_int l shape t :
  check_ints true l shape = Ok t -> len l <= len shape ->
  Forall (fun e => is_int e = false) t.
Proof.
  revert shape t. induction l as [|x l IH]; intros shape t H Hle.
  - destruct shape; inversion H; constructor.
  - destruct shape as [|n shape].
    + rewrite len_cons in Hle. pose proof (len_nonneg l).
      change (len (@nil Z)) with 0 in Hle. lia.
    + simpl in H.
      apply bind_Ok_inv in H as (x' & Hx & H).
      apply bind_Ok_inv in H as (t' & Ht & H).
      inversion H; subst. rewrite !len_cons in Hle.
      constructor; [|apply (IH shape); [assumption | lia]].
      destruct x as [i| | |]; try (inversion Hx; reflexivity).
      destruct ((if i <? 0 then i + n else i) >=? n); [discriminate|].
      now inversion Hx.
Qed.

(** Running the loop on its own result changes nothing. *)
Lemma check_ints_idem b l shape t :
  check_ints b l shape = Ok t -> check_ints b t shape = Ok t.
Proof.
  revert shape t. induction l as [|x l IH]; intros shape t H.
  - destruct shape; inversion H; reflexivity.
  - destruct shape as [|n shape]; [now inversion H|].
    simpl in H.
    apply bind_Ok_inv in H as (x' & Hx & H).
    apply bind_Ok_inv in H as (t' & Ht & H).
    inversion H; subst. simpl. rewrite (IH _ _ Ht).
    destruct x as [i| | |]; try (inversion Hx; reflexivity).
    destruct ((if i <? 0 then i + n else i) >=? n) eqn:G; [discriminate|].
    destruct b; inversion Hx; subst; [reflexivity|].
    simpl. now rewrite G.
Qed.

Lemma kinds_no_ellipsis t :
  Forall (fun e => is_int e = true \/ is_slice e = true) t ->
  contains is_ellipsis t = false.
Proof.
  induction 1 as [|x t [H|H] _ IH]; simpl; [reflexivity| |];
    destruct x; try discriminate H; exact IH.
Qed.

(** The two settings of [int_to_slice] take the same decisions. *)
Lemma check_ints_both l shape :
  match check_ints false l shape, check_ints true l shape with
  | Ok t, Ok t' =>
      t = l /\ any_caught t' shape = any_caught l shape
      /\ contains is_none t' = contains is_none l
      /\ len t' = len l
  | Raise e, Raise e' => e = e'
  | _, _ => False
  end.
Proof.
  revert shape. induction l as [|x l IH]; intros shape.
  - destruct shape; simpl; auto.
  - destruct shape as [|n shape]; [simpl; auto|].
    specialize (IH shape). simpl.
    destruct x as [i|a b c| |]; simpl.
    + destruct ((if i <? 0 then i + n else i) >=? n) eqn:G; [reflexivity|].
      simpl.
      destruct (check_ints false l shape) as [t|e],
               (check_ints true l shape) as [t'|e']; simpl; try easy.
      destruct IH as (-> & A & N & Len).
      set (idx := if i <? 0 then i + n else i) in *.
      rewrite Z.geb_leb in G. apply Z.leb_gt in G.
      assert (E1 : (idx =? idx + 1) = false) by (apply Z.eqb_neq; lia).
      assert (E2 : (idx =? n) = false) by (apply Z.eqb_neq; lia).
      rewrite E1, E2, A, N, !len_cons, Len. simpl. auto.
    + destruct (check_ints false l shape) as [t|e],
               (check_ints true l shape) as [t'|e']; simpl; try easy.
      destruct IH as (-> & A & N & Len).
      rewrite A, N, !len_cons, Len. auto.
    + destruct (check_ints false l shape) as [t|e],
               (check_ints true l shape) as [t'|e']; simpl; try easy.
      destruct IH as (-> & A & N & Len).
      rewrite A, N, !len_cons, Len. auto.
    + destruct (check_ints false l shape) as [t|e],
               (check_ints true l shape) as [t'|e']; simpl; try easy.
      destruct IH as (-> & A & N & Len).
      rewrite !len_cons, Len. auto.
Qed.

(** *** Properties of the call *)

(** X5.  With [int_to_slice=True] every entry of a returned tuple is a
    slice. *)
Theorem X5_int_to_slice_only_slices (indices : index_expr) (shape : list Z)
        (t : list index) :
  normalized_index_expression indices shape true = Ok t ->
  Forall (fun e => is_slice e = true) t.
Proof.
  intros H.
  apply normalized_inv in H as (l & f & _ & Hf & Ht & _ & N & Hle).
  pose proof (check_ints_rel _ _ _ _ Ht) as R.
  pose proof (rel_len _ _ _ R) as Hlen.
  assert (K : Forall (fun e => is_int e = true \/ is_slice e = true) t)
    by (eapply rel_kinds; eauto using fill_no_ellipsis).
  assert (I : Forall (fun e => is_int e = false) t)
    by (eapply check_ints_no_int; [eassumption | lia]).
  clear - K I. induction K as [|x t [H|H] _ IH]; inversion I; subst;
    constructor; auto; congruence.
Qed.

Lemma X5_int_to_slice_only_slices_witness :
  Forall (fun e => is_slice e = true)
         [ISlice (Some 2) (Some 3) None; full_slice;
          ISlice (Some 4) (Some 5) None].
Proof.
  apply (X5_int_to_slice_only_slices
           (Many [IInt (-1); IEllipsis; IInt 4]) [3; 4; 5]).
  reflexivity.
Defined.

(** X6.  A returned tuple is a fixed point: normalising it again, for
    the same shape and the same [int_to_slice], returns it unchanged. *)
Theorem X6_idempotent (indices : index_expr) (shape : list Z)
        (int_to_slice : bool) (t : list index) :
  normalized_index_expression indices shape int_to_slice = Ok t ->
  normalized_index_expression (Many t) shape int_to_slice = Ok t.
Proof.
  intros H.
  apply normalized_inv in H as (l & f & _ & Hf & Ht & A & N & Hle).
  pose proof (check_ints_rel _ _ _ _ Ht) as R.
  pose proof (rel_len _ _ _ R) as Hlen.
  pose proof (fill_append_len _ _ _ Hf) as Hge.
  assert (E : contains is_ellipsis t = false).
  { apply kinds_no_ellipsis. eapply rel_kinds; eauto using fill_no_ellipsis. }
  unfold normalized_index_expression. simpl as_list.
  cbv beta iota delta [bind].
  assert (Ha : append_ellipsis (len shape) t = t).
  { unfold append_ellipsis.
    destruct (len t <? len shape) eqn:L; [apply Z.ltb_lt in L; lia|].
    reflexivity. }
  rewrite Ha, fill_absent by assumption.
  rewrite (check_ints_idem _ _ _ _ Ht), A, N.
  destruct (len t >? len shape) eqn:G; [|reflexivity].
  rewrite Z.gtb_ltb in G. apply Z.ltb_lt in G. lia.
Qed.

Lemma X6_idempotent_witness :
  normalized_index_expression (Many [IInt (-1); full_slice; IInt 4])
                              [3; 4; 5] false
  = Ok [IInt (-1); full_slice; IInt 4].
Proof.
  apply (X6_idempotent (Many [IInt (-1); IEllipsis; IInt 4]) [3; 4; 5] false).
  reflexivity.
Defined.

(** X7.  A sequence with more entries other than Ellipsis than the
    shape has axes is never accepted. *)
Theorem X7_too_many_indices (l : list index) (shape : list Z)
        (int_to_slice : bool) :
  len shape < len l - count is_ellipsis l ->
  raises (normalized_index_expression (Many l) shape int_to_slice).
Proof.
  intros Hmany.
  destruct (normalized_index_expression (Many l) shape int_to_slice)
    as [t|e] eqn:H; [|now exists e].
  exfalso.
  apply normalized_inv in H as (l0 & f & Hl & Hf & Ht & _ & _ & Hle).
  inversion Hl; subst l0; clear Hl.
  pose proof (rel_len _ _ _ (check_ints_rel _ _ _ _ Ht)) as Hlen.
  pose proof (count_nonneg is_ellipsis l) as Hc.
  assert (Ha : append_ellipsis (len shape) l = l).
  { unfold append_ellipsis.
    destruct (len l <? len shape) eqn:L; [apply Z.ltb_lt in L; lia|].
    reflexivity. }
  rewrite Ha in Hf.
  destruct (fill_inv _ _ _ Hf) as [[C ->]|(pre & post & -> & P & Q & ->)].
  - lia.
  - rewrite len_app, len_cons, count_app in Hmany.
    change (IEllipsis :: post) with ([IEllipsis] ++ post) in Hmany.
    rewrite count_app, (count_zero _ _ P), (count_zero _ _ Q) in Hmany.
    change (count is_ellipsis [IEllipsis]) with 1 in Hmany.
    rewrite !len_app, len_repeat in Hlen.
    pose proof (len_nonneg pre). pose proof (len_nonneg post). lia.
Qed.

Lemma X7_too_many_indices_witness :
  raises (normalized_index_expression
            (Many [IInt 0; IEllipsis; IInt 0; IInt 0]) [3; 4] false).
Proof.
  apply X7_too_many_indices. vm_compute. reflexivity.
Defined.

(** X10.  [int_to_slice] has no influence on what is accepted: the call
    raises [e] with [int_to_slice=True] exactly when it raises [e] with
    [int_to_slice=False]. *)
Theorem X10_int_to_slice_same_errors (indices : index_expr)
        (shape : list Z) (e : exn) :
  normalized_index_expression indices shape true = Raise e
  <-> normalized_index_expression indices shape false = Raise e.
Proof.
  unfold normalized_index_expression.
  destruct (as_list indices) as [l|e0]; simpl; [|reflexivity].
  destruct (fill_ellipsis (len shape) (append_ellipsis (len shape) l))
    as [f|e1]; simpl; [|reflexivity].
  pose proof (check_ints_both f shape) as B.
  destruct (check_ints false f shape) as [t|e2],
           (check_ints true f shape) as [t'|e3]; simpl; try easy.
  - destruct B as (-> & -> & -> & ->).
    destruct (any_caught f shape), (contains is_none f),
      (len f >? len shape); try reflexivity; split; discriminate.
  - subst. reflexivity.
Qed.

Lemma X10_int_to_slice_same_errors_witness :
  normalized_index_expression (Many [IInt 3; IEllipsis]) [3; 4] true
  = Raise IndexError.
Proof.
  apply X10_int_to_slice_same_errors. reflexivity.
Defined.

(** *** Sequences of integers, one per axis *)

Lemma map_int_plain (p : index -> bool) ints :
  (forall i, p (IInt i) = false) -> contains p (map IInt ints) = false.
Proof.
  intros H. induction ints as [|i ints IH]; simpl; [reflexivity|].
  now rewrite H.
Qed.

Lemma map_int_not_caught ints shape :
  any_caught (map IInt ints) shape = false.
Proof.
  revert shape. induction ints as [|i ints IH]; intros [|n shape]; simpl;
    auto.
Qed.

Lemma len_map_int ints : len (map IInt ints) = len ints.
Proof. unfold len. now rewrite length_map. Qed.

Lemma check_ints_all_int ints shape :
  List.length ints = List.length shape ->
  check_ints false (map IInt ints) shape
  = if forallb (fun p => (fst p <? 0) || (fst p <? snd p))
               (combine ints shape)
    then Ok (map IInt ints) else Raise IndexError.
Proof.
  revert shape. induction ints as [|i ints IH]; intros [|n shape] H;
    try discriminate H; [reflexivity|].
  injection H as H. simpl. rewrite (IH _ H).
  assert (G : ((if i <? 0 then i + n else i) >=? n)
              = negb ((i <? 0) || (i <? n))).
  { rewrite Z.geb_leb.
    destruct (i <? 0) eqn:L; simpl.
    - apply Z.ltb_lt in L. apply Z.leb_gt. lia.
    - destruct (i <? n) eqn:L2; simpl.
      + apply Z.ltb_lt in L2. apply Z.leb_gt. lia.
      + apply Z.ltb_ge in L2. now apply Z.leb_le. }
  rewrite G.
  destruct ((i <? 0) || (i <? n)); simpl; [|reflexivity].
  now destruct (forallb _ (combine ints shape)).
Qed.

(** X8.  For a sequence of integers, one per axis, and
    [int_to_slice=False]: the call returns the sequence as it is when
    every entry is negative or below the size of its axis, and raises
    IndexError otherwise.  (A negative entry is never rejected.) *)
Theorem X8_integer_indices (ints shape : list Z) :
  List.length ints = List.length shape ->
  normalized_index_expression (Many (map IInt ints)) shape false
  = if forallb (fun p => (fst p <? 0) || (fst p <? snd p))
               (combine ints shape)
    then Ok (map IInt ints) else Raise IndexError.
Proof.
  intros H. unfold normalized_index_expression. simpl as_list.
  cbv beta iota delta [bind].
  assert (Hlen : len (map IInt ints) = len shape).
  { rewrite len_map_int. unfold len. now rewrite H. }
  assert (Ha : append_ellipsis (len shape) (map IInt ints) = map IInt ints).
  { unfold append_ellipsis. rewrite Hlen, Z.ltb_irrefl. reflexivity. }
  rewrite Ha, fill_absent by (now apply map_int_plain).
  rewrite check_ints_all_int by assumption.
  destruct (forallb _ (combine ints shape)); [|reflexivity].
  rewrite map_int_not_caught, map_int_plain by reflexivity.
  rewrite Hlen.
  destruct (len shape >? len shape) eqn:G; [|reflexivity].
  rewrite Z.gtb_ltb in G. apply Z.ltb_lt in G. lia.
Qed.

Lemma X8_integer_indices_witness :
  normalized_index_expression (Many (map IInt [-7; 3; 0])) [3; 4; 5] false
  = Ok (map IInt [-7; 3; 0])
  /\ normalized_index_expression (Many (map IInt [0; 4; 0])) [3; 4; 5] false
     = Raise IndexError.
Proof.
  split.
  - apply (X8_integer_indices [-7; 3; 0] [3; 4; 5]). reflexivity.
  - apply (X8_integer_indices [0; 4; 0] [3; 4; 5]). reflexivity.
Defined.

(** The slice of length one at the wrapped position of [i]. *)
Lemma unit_slice_selects_one a n :
  0 <= a < n ->
  slice_length (Some a) (Some (a + 1)) None n = Some 1.
Proof.
  intros H. unfold slice_length, clip. simpl (1 =? 0). simpl (1 >? 0).
  cbv iota.
  destruct (a <? 0) eqn:L1; [apply Z.ltb_lt in L1; lia|].
  destruct (a + 1 <? 0) eqn:L2; [apply Z.ltb_lt in L2; lia|].
  rewrite (Z.min_r n a), (Z.max_r 0 a) by lia.
  rewrite (Z.min_r n (a + 1)), (Z.max_r 0 (a + 1)) by lia.
  destruct (a <? a + 1) eqn:L3; [|apply Z.ltb_ge in L3; lia].
  replace (a + 1 - a - 1) with 0 by lia. reflexivity.
Qed.

Lemma check_ints_in_range ints shape :
  Forall2 (fun i n => - n <= i < n) ints shape ->
  let r := map (fun p => ISlice (Some (fst p mod snd p))
                                (Some (fst p mod snd p + 1)) None)
               (combine ints shape) in
  check_ints true (map IInt ints) shape = Ok r
  /\ any_caught r shape = false
  /\ contains is_none r = false
  /\ len r = len shape.
Proof.
  induction 1 as [|i n ints shape Hi _ IH]; simpl; [auto|].
  destruct IH as (C & A & N & Len).
  assert (W : (if i <? 0 then i + n else i) = i mod n).
  { destruct (i <? 0) eqn:L.
    - apply Z.ltb_lt in L. apply Z.mod_unique with (q := -1); lia.
    - apply Z.ltb_ge in L. symmetry. apply Z.mod_small. lia. }
  assert (B : 0 <= i mod n < n) by (apply Z.mod_pos_bound; lia).
  rewrite W.
  destruct (i mod n >=? n) eqn:G;
    [rewrite Z.geb_leb in G; apply Z.leb_le in G; lia|].
  simpl. rewrite C. simpl.
  assert (E1 : (i mod n =? i mod n + 1) = false) by (apply Z.eqb_neq; lia).
  assert (E2 : (i mod n =? n) = false) by (apply Z.eqb_neq; lia).
  rewrite E1, E2, A, N. simpl. rewrite !len_cons, Len. auto.
Qed.

(** X9.  For a sequence of integers, one per axis, each within
    [[-n, n)] for its axis of size [n], and [int_to_slice=True]: the call
    returns for each entry [i] the slice [(i mod n, i mod n + 1)], and
    each of these slices selects exactly one element of its axis. *)
Theorem X9_unit_slices (ints shape : list Z) :
  Forall2 (fun i n => - n <= i < n) ints shape ->
  normalized_index_expression (Many (map IInt ints)) shape true
  = Ok (map (fun p => ISlice (Some (fst p mod snd p))
                             (Some (fst p mod snd p + 1)) None)
            (combine ints shape))
  /\ Forall2 (fun i n => slice_length (Some (i mod n)) (Some (i mod n + 1))
                                      None n = Some 1) ints shape.
Proof.
  intros H. split.
  - destruct (check_ints_in_range _ _ H) as (C & A & N & Len).
    unfold normalized_index_expression. simpl as_list.
    cbv beta iota delta [bind].
    assert (Hlen : len (map IInt ints) = len shape).
    { rewrite len_map_int. unfold len. now rewrite (Forall2_length H). }
    assert (Ha : append_ellipsis (len shape) (map IInt ints) = map IInt ints).
    { unfold append_ellipsis. rewrite Hlen, Z.ltb_irrefl. reflexivity. }
    rewrite Ha, fill_absent by (now apply map_int_plain).
    rewrite C, A, N, Len.
    destruct (len shape >? len shape) eqn:G; [|reflexivity].
    rewrite Z.gtb_ltb in G. apply Z.ltb_lt in G. lia.
  - induction H as [|i n ints shape Hi _ IH]; constructor; [|exact IH].
    apply unit_slice_selects_one. apply Z.mod_pos_bound. lia.
Qed.

Lemma X9_unit_slices_witness :
  normalized_index_expression (Many (map IInt [-1; 3])) [3; 4] true
  = Ok [ISlice (Some 2) (Some 3) None; ISlice (Some 3) (Some 4) None].
Proof.
  apply (X9_unit_slices [-1; 3] [3; 4]).
  constructor; [lia|]. constructor; [lia|]. constructor.
Defined.

End IndexMore.


(* ===================================================================== *)
(** ** More on the spaces *)
(* ===================================================================== *)

Module SpaceMore.
Import SpaceFacts.

Ltac run := unfold bindM, call, lift, ret, raise; cbn [fst snd].

(** X11.  On either platform the class body builds the table
    [CudaFn.dtypes] without raising; every item written in the dict
    literal is found again with the value written beside it (the keys
    that occur twice, [np.float]/[np.float64] and [np.int] with
    [np.int32] or [np.int64], carry the same value both times); and two
    different dtypes never share a vector type. *)
Theorem X11_dtypes_table (long64 : bool) :
  exists table,
    ODL.dtypes long64 = Ok table
    /\ Forall (fun kv => ODL.dict_get dtype_beq table (fst kv)
                         = Some (snd kv))
              [ (ODL.np_float, CudaVectorFloat64);
                (float32, CudaVectorFloat32);
                (float64, CudaVectorFloat64);
                (ODL.np_int long64,
                 if long64 then CudaVectorInt64 else CudaVectorInt32);
                (int8, CudaVectorInt8);
                (int16, CudaVectorInt16);
                (int32, CudaVectorInt32);
                (int64, CudaVectorInt64);
                (uint8, CudaVectorUInt8);
                (uint16, CudaVectorUInt16);
                (uint32, CudaVectorUInt32);
                (uint64, CudaVectorUInt64) ]
    /\ (forall d1 d2 impl,
           ODL.dict_get dtype_beq table d1 = Some impl ->
           ODL.dict_get dtype_beq table d2 = Some impl ->
           d1 = d2).
Proof.
  destruct long64; eexists; (split; [reflexivity|]); split.
  - repeat constructor.
  - intros d1 d2 impl H1 H2.
    destruct d1; try discriminate H1; inversion H1; subst;
      destruct d2; try discriminate H2; reflexivity.
  - repeat constructor.
  - intros d1 d2 impl H1 H2.
    destruct d1; try discriminate H1; inversion H1; subst;
      destruct d2; try discriminate H2; reflexivity.
Qed.

Lemma X11_dtypes_table_witness :
  exists table,
    ODL.dtypes true = Ok table
    /\ ODL.dict_get dtype_beq table uint8 = Some CudaVectorUInt8
    /\ (forall d, ODL.dict_get dtype_beq table d = Some CudaVectorUInt8 ->
                  d = uint8).
Proof.
  destruct (X11_dtypes_table true) as (table & T & items & inj).
  exists table. split; [exact T|].
  assert (H : ODL.dict_get dtype_beq table uint8 = Some CudaVectorUInt8)
    by (inversion T; reflexivity).
  split; [exact H|].
  intros d Hd. exact (inj d uint8 CudaVectorUInt8 Hd H).
Defined.

(** X12.  Whatever its arguments, [CudaFn.__init__] never calls the
    extension and raises nothing but TypeError; and a space that it does
    construct has a dimension of at least 1, which is the integer it was
    given, the class it was called for, a supported dtype, which is the
    one numpy reads from the [dtype] argument, and as [_vector_impl] the
    table's entry for that dtype. *)
Theorem X12_CudaFn_invariant (long64 : bool) (cls : ODL.space_class)
        (dim : pyobj) (spec : ODL.dtype_spec) (lg : log) :
  snd (ODL.CudaFn__init__ long64 cls dim spec lg) = lg
  /\ (forall e, fst (ODL.CudaFn__init__ long64 cls dim spec lg) = Raise e ->
                e = TypeError)
  /\ (forall S, fst (ODL.CudaFn__init__ long64 cls dim spec lg) = Ok S ->
                dim = OInt (ODL.dim S)
                /\ 1 <= ODL.dim S
                /\ ODL.class_of S = cls
                /\ ODL.np_dtype long64 spec = Ok (ODL._dtype S)
                /\ ODL.spec_supported_dtype (ODL._dtype S) = true
                /\ exists table,
                    ODL.dtypes long64 = Ok table
                    /\ ODL.dict_get dtype_beq table (ODL._dtype S)
                       = Some (ODL._vector_impl S)).
Proof.
  unfold ODL.CudaFn__init__.
  destruct dim as [|n| | | | | |];
    try (split; [reflexivity|]; split; intros ? H; inversion H; reflexivity).
  destruct (n <? 1) eqn:L;
    [split; [reflexivity|]; split; intros ? H; inversion H; reflexivity|].
  apply Z.ltb_ge in L. run.
  destruct (ODL.np_dtype long64 spec) as [d|e0] eqn:D.
  - destruct (ODL.spec_supported_dtype d) eqn:Sup.
    + destruct (dtypes_supported long64 d) as (table & T & yes & _).
      destruct (yes Sup) as [impl I]. rewrite T, I. cbn [fst snd].
      split; [reflexivity|]. split; [intros ? H; inversion H|].
      intros S H. inversion H; subst S. cbn.
      repeat split; try assumption. exists table. now split.
    + destruct (dtypes_supported long64 d) as (table & T & _ & no).
      rewrite T, (no Sup). cbn [fst snd].
      split; [reflexivity|]. split; intros ? H; inversion H; reflexivity.
  - cbn [fst snd]. split; [reflexivity|].
    split; intros ? H; inversion H; subst.
    destruct spec; try discriminate D. now inversion D.
Qed.

Lemma X12_CudaFn_invariant_witness :
  fst (ODL.CudaFn__init__ true ODL.CudaFn_class (OInt 3) ODL.PyInt [])
  = Ok (ODL.mkCudaFn ODL.CudaFn_class ODL.RealNumbers 3 int64
                     CudaVectorInt64)
  /\ OInt 3 = OInt 3 /\ 1 <= 3.
Proof.
  split; [reflexivity|].
  destruct (X12_CudaFn_invariant true ODL.CudaFn_class (OInt 3) ODL.PyInt [])
    as (_ & _ & inv).
  destruct (inv (ODL.mkCudaFn ODL.CudaFn_class ODL.RealNumbers 3 int64
                              CudaVectorInt64) eq_refl)
    as (Hd & Hn & _).
  split; [exact Hd | exact Hn].
Defined.

(** X13.  [CudaFn.equals] is an equivalence on spaces: every space
    equals itself, [S1.equals(S2)] and [S2.equals(S1)] agree, and
    equality carries over from [S1], [S2] and [S2], [S3] to [S1],
    [S3]. *)
Theorem X13_CudaFn_equals_equivalence (S1 S2 S3 : ODL.CudaFn) :
  ODL.equals S1 (ODL.Space S1) = true
  /\ ODL.equals S1 (ODL.Space S2) = ODL.equals S2 (ODL.Space S1)
  /\ (ODL.equals S1 (ODL.Space S2) = true ->
      ODL.equals S2 (ODL.Space S3) = true ->
      ODL.equals S1 (ODL.Space S3) = true).
Proof.
  assert (E : forall A B, ODL.equals A (ODL.Space B) = true
                          <-> (ODL.class_of A = ODL.class_of B
                               /\ ODL.dim A = ODL.dim B
                               /\ ODL._dtype A = ODL._dtype B)).
  { intros A B. unfold ODL.equals.
    rewrite !andb_true_iff, space_class_beq_eq, dtype_beq_eq, Z.eqb_eq.
    tauto. }
  split; [|split].
  - apply E. auto.
  - destruct (ODL.equals S1 (ODL.Space S2)) eqn:H12,
             (ODL.equals S2 (ODL.Space S1)) eqn:H21; try reflexivity.
    + apply E in H12 as (? & ? & ?).
      assert (ODL.equals S2 (ODL.Space S1) = true) by (apply E; auto).
      congruence.
    + apply E in H21 as (? & ? & ?).
      assert (ODL.equals S1 (ODL.Space S2) = true) by (apply E; auto).
      congruence.
  - intros H12 H23. apply E in H12 as (? & ? & ?).
    apply E in H23 as (? & ? & ?). apply E. repeat split; congruence.
Qed.

Lemma X13_CudaFn_equals_equivalence_witness :
  let S := ODL.mkCudaFn ODL.CudaRn_class ODL.RealNumbers 3 float32
                        CudaVectorFloat32 in
  ODL.equals S (ODL.Space S) = true.
Proof.
  intros S.
  destruct (X13_CudaFn_equals_equivalence S S S) as (_ & _ & trans).
  apply trans; reflexivity.
Defined.

(** X14.  [CudaRN.equals] is an equivalence on spaces as well; the native
    space objects that two spaces hold play no part in it. *)
Theorem X14_CudaRN_equals_equivalence (S1 S2 S3 : RL.CudaRN) :
  RL.equals S1 (RL.Space S1) = true
  /\ RL.equals S1 (RL.Space S2) = RL.equals S2 (RL.Space S1)
  /\ (RL.equals S1 (RL.Space S2) = true ->
      RL.equals S2 (RL.Space S3) = true ->
      RL.equals S1 (RL.Space S3) = true)
  /\ (forall h, RL.equals S1 (RL.Space (RL.mkCudaRN (RL.n S1)
                                                    ODL.RealNumbers h))
                = true).
Proof.
  unfold RL.equals. cbn [RL.n]. repeat split.
  - apply Z.eqb_refl.
  - apply Z.eqb_sym.
  - rewrite !Z.eqb_eq. congruence.
  - intros h. apply Z.eqb_refl.
Qed.

Lemma X14_CudaRN_equals_equivalence_witness :
  RL.equals (RL.mkCudaRN 3 ODL.RealNumbers (OHandle CudaRNImpl 0))
            (RL.Space (RL.mkCudaRN 3 ODL.RealNumbers (OHandle CudaRNImpl 2)))
  = true.
Proof.
  destruct (X14_CudaRN_equals_equivalence
              (RL.mkCudaRN 3 ODL.RealNumbers (OHandle CudaRNImpl 0))
              (RL.mkCudaRN 3 ODL.RealNumbers (OHandle CudaRNImpl 1))
              (RL.mkCudaRN 3 ODL.RealNumbers (OHandle CudaRNImpl 2)))
    as (_ & _ & trans & _).
  apply trans; reflexivity.
Defined.

End SpaceMore.


(* ===================================================================== *)
(** ** More on the vectors *)
(* ===================================================================== *)

Module VectorMore.
Import VectorFacts.

Ltac run := unfold bindM, call, lift, ret, raise; cbn [fst snd].

Lemma new_Vector_inv S d v :
  ODL.new_Vector S d = Ok v ->
  isinstance d (ODL._vector_impl S) = true /\ v = ODL.mkVector S (Some d).
Proof.
  unfold ODL.new_Vector, ODL.Vector__init__.
  destruct (isinstance d (ODL._vector_impl S)); simpl; [|discriminate].
  intros H. now inversion H.
Qed.

Lemma isinstance_inv d cls :
  isinstance d cls = true -> exists id, d = OHandle cls id.
Proof.
  destruct d; try discriminate. simpl. intros H. exists id.
  destruct cls0, cls; (reflexivity || discriminate).
Qed.

Section ODLVector.
Variable cuda : extension.
Variable np_asarray : pyobj -> dtype -> outcome pyobj.
Variable S : ODL.CudaFn.

(** A call of [cuda] whose result is wrapped in a vector of [S]. *)
Lemma wrap_native_call c lg v lg' :
  (h <~ call cuda c ;; lift (ODL.new_Vector S h)) lg = (Ok v, lg')
  <-> exists id,
      cuda lg c = Ok (OHandle (ODL._vector_impl S) id)
      /\ v = ODL.mkVector S (Some (OHandle (ODL._vector_impl S) id))
      /\ lg' = lg ++ [c].
Proof.
  run. split.
  - destruct (cuda lg c) as [h|e]; [|discriminate].
    destruct (ODL.new_Vector S h) as [w|e] eqn:N; [|discriminate].
    intros H. inversion H; subst.
    apply new_Vector_inv in N as [I ->].
    destruct (isinstance_inv _ _ I) as [id ->]. now exists id.
  - intros (id & -> & -> & ->).
    now rewrite new_Vector_match by apply isinstance_handle.
Qed.


(** The run of [S.element(inp)] once the allocation has returned a
    handle. *)
Lemma element_inp_run (inp : pyobj) (lg : log) (id : Z) :
  let alloc := Construct (ODL._vector_impl S) [OInt (ODL.dim S)] in
  let h := OHandle (ODL._vector_impl S) id in
  is_None inp = false ->
  cuda lg alloc = Ok h ->
  (forall arr,
      np_asarray inp (ODL._dtype S) = Ok arr ->
      let write := Method h "setslice" [OSlice None None None; arr] in
      ODL.element cuda np_asarray S inp ONone lg
      = (match cuda (lg ++ [alloc]) write with
         | Ok _ => Ok (ODL.mkVector S (Some h))
         | Raise e => Raise e
         end,
         lg ++ [alloc; write]))
  /\ (forall e,
         np_asarray inp (ODL._dtype S) = Raise e ->
         ODL.element cuda np_asarray S inp ONone lg
         = (Raise e, lg ++ [alloc])).
Proof.
  intros alloc h Hi Ha.
  unfold ODL.element, ODL.element_empty. rewrite Hi. simpl.
  unfold ODL.Vector__setitem__. simpl is_slice. cbv iota. run.
  fold alloc. rewrite Ha. fold h.
  rewrite new_Vector_match by apply isinstance_handle.
  split.
  - intros arr Hc. cbn. rewrite Hc. cbn.
    rewrite <- app_assoc. simpl.
    now destruct (cuda (lg ++ [alloc])
                    (Method h "setslice" [OSlice None None None; arr])).
  - intros e Hc. cbn. now rewrite Hc.
Qed.

(** X16.  [S.element(inp)] first allocates through the native
    constructor [impl(dim)], then converts [inp] with
    [np.asarray(inp, dtype=S._dtype)] and writes the result through one
    [setslice(slice(None), array)] call on the new handle; the returned
    vector wraps that handle.  When the conversion raises, the exception
    is that of the call, and [setslice] is not reached. *)
Theorem X16_element_from_array (inp : pyobj) (lg : log) (id : Z) :
  let alloc := Construct (ODL._vector_impl S) [OInt (ODL.dim S)] in
  let h := OHandle (ODL._vector_impl S) id in
  is_None inp = false ->
  cuda lg alloc = Ok h ->
  (forall arr,
      np_asarray inp (ODL._dtype S) = Ok arr ->
      let write := Method h "setslice" [OSlice None None None; arr] in
      ODL.element cuda np_asarray S inp ONone lg
      = (match cuda (lg ++ [alloc]) write with
         | Ok _ => Ok (ODL.mkVector S (Some h))
         | Raise e => Raise e
         end,
         lg ++ [alloc; write]))
  /\ (forall e,
         np_asarray inp (ODL._dtype S) = Raise e ->
         ODL.element cuda np_asarray S inp ONone lg
         = (Raise e, lg ++ [alloc])).
Proof. exact (element_inp_run inp lg id). Qed.

End ODLVector.


Lemma X16_element_from_array_witness :
  let S := ODL.mkCudaFn ODL.CudaFn_class ODL.RealNumbers 3 uint8
                        CudaVectorUInt8 in
  ODL.element Sample.ext Sample.to_array S (OList [1; 0; 1]) ONone []
  = (Ok (ODL.mkVector S (Some (OHandle CudaVectorUInt8 0))),
     [Construct CudaVectorUInt8 [OInt 3];
      Method (OHandle CudaVectorUInt8 0) "setslice"
             [OSlice None None None; ONdarray uint8 [1; 0; 1]]])
  /\ ODL.element Sample.ext Sample.to_array S (OStr "abc") ONone []
     = (Raise TypeError, [Construct CudaVectorUInt8 [OInt 3]]).
Proof.
  intros S.
  destruct (X16_element_from_array Sample.ext Sample.to_array S
              (OList [1; 0; 1]) [] 0 eq_refl eq_refl) as (ok & _).
  destruct (X16_element_from_array Sample.ext Sample.to_array S
              (OStr "abc") [] 0 eq_refl eq_refl) as (_ & bad).
  split.
  - exact (ok (ONdarray uint8 [1; 0; 1]) eq_refl).
  - exact (bad TypeError eq_refl).
Defined.

(** X17.  Construction and [element] compose: with an extension whose
    constructors return an instance of the class that is called, a
    positive integer [n] and a supported dtype [d], [CudaFn(n,
    d).element()] makes one native call and gives a vector of length
    [n] in a space of dtype [d]; and [CudaFn(n, d).element(inp)]
    allocates [n] entries and writes [inp], converted to [d], through
    [setslice]. *)
Theorem X17_construct_then_element (long64 : bool) (cuda : extension)
        (np_asarray : pyobj -> dtype -> outcome pyobj)
        (n : Z) (spec : ODL.dtype_spec) (d : dtype) (lg : log) :
  (forall l cls args, exists id, cuda l (Construct cls args)
                                 = Ok (OHandle cls id)) ->
  1 <= n -> ODL.np_dtype long64 spec = Ok d ->
  ODL.spec_supported_dtype d = true ->
  exists impl id,
    let h := OHandle impl id in
    (exists v,
        (S <~ ODL.new_CudaFn long64 (OInt n) spec ;;
         ODL.element cuda np_asarray S ONone ONone) lg
        = (Ok v, lg ++ [Construct impl [OInt n]])
        /\ ODL._data v = Some h
        /\ ODL.Vector__len__ v = n
        /\ ODL._dtype (ODL.space v) = d)
    /\ (forall inp arr,
           is_None inp = false -> np_asarray inp d = Ok arr ->
           snd ((S <~ ODL.new_CudaFn long64 (OInt n) spec ;;
                 ODL.element cuda np_asarray S inp ONone) lg)
           = lg ++ [Construct impl [OInt n];
                    Method h "setslice" [OSlice None None None; arr]]).
Proof.
  intros Hc Hn Hd Hs.
  destruct (SpaceFacts.CudaFn_accepts long64 ODL.CudaFn_class n spec d lg
              Hn Hd Hs) as [impl E].
  set (S := ODL.mkCudaFn ODL.CudaFn_class ODL.RealNumbers n d impl) in *.
  destruct (Hc lg impl [OInt n]) as [id Hid].
  exists impl, id. cbv zeta. split.
  - exists (ODL.mkVector S (Some (OHandle impl id))).
    unfold bindM at 1. unfold ODL.new_CudaFn. rewrite E.
    split; [|now repeat split].
    apply (wrap_native_call cuda S). exists id. now repeat split.
  - intros inp arr Hi Ha.
    unfold bindM at 1. unfold ODL.new_CudaFn. rewrite E.
    destruct (element_inp_run cuda np_asarray S inp lg id Hi Hid)
      as (ok & _).
    now rewrite (ok arr Ha).
Qed.

Lemma X17_construct_then_element_witness :
  exists impl id,
    snd ((S <~ ODL.new_CudaFn true (OInt 3) (ODL.OfDtype uint8) ;;
          ODL.element Sample.ext Sample.to_array S (OList [1; 0; 1]) ONone)
           [])
    = [Construct impl [OInt 3];
       Method (OHandle impl id) "setslice"
              [OSlice None None None; ONdarray uint8 [1; 0; 1]]].
Proof.
  destruct (X17_construct_then_element
              true Sample.ext Sample.to_array 3 (ODL.OfDtype uint8) uint8 [])
    as (impl & id & _ & write).
  - intros l cls args. exists (len l). reflexivity.
  - lia.
  - reflexivity.
  - reflexivity.
  - exists impl, id.
    apply (write (OList [1; 0; 1]) (ONdarray uint8 [1; 0; 1]));
      reflexivity.
Defined.

(** X18.  Loading the module makes exactly one native call, the
    allocation [CudaVectorFloat32(1)] of the probe [CudaRn(1).element()].
    The module loads exactly when that call returns a
    [CudaVectorFloat32]; loading fails with ImportError exactly when the
    call raises MemoryError; any other exception of the call is passed
    on, and an object of another type fails the probe with TypeError. *)
Theorem X18_load_module (long64 : bool) (cuda : extension)
        (np_asarray : pyobj -> dtype -> outcome pyobj) (lg : log) :
  let probe := Construct CudaVectorFloat32 [OInt 1] in
  snd (ODL.load_module long64 cuda np_asarray lg) = lg ++ [probe]
  /\ (fst (ODL.load_module long64 cuda np_asarray lg) = ODL.Loaded
      <-> exists id, cuda lg probe = Ok (OHandle CudaVectorFloat32 id))
  /\ (fst (ODL.load_module long64 cuda np_asarray lg) = ODL.ImportError
      <-> cuda lg probe = Raise MemoryError)
  /\ (forall e, cuda lg probe = Raise e -> e <> MemoryError ->
                fst (ODL.load_module long64 cuda np_asarray lg)
                = ODL.Failed e)
  /\ (forall h, cuda lg probe = Ok h ->
                isinstance h CudaVectorFloat32 = false ->
                fst (ODL.load_module long64 cuda np_asarray lg)
                = ODL.Failed TypeError).
Proof.
  intros probe.
  assert (E : ODL.load_module long64 cuda np_asarray lg
              = (match cuda lg probe with
                 | Ok h => if isinstance h CudaVectorFloat32
                           then ODL.Loaded else ODL.Failed TypeError
                 | Raise MemoryError => ODL.ImportError
                 | Raise e => ODL.Failed e
                 end, lg ++ [probe])).
  { unfold ODL.load_module, ODL.new_CudaRn, ODL.CudaFn__init__.
    destruct long64; cbn; fold probe;
      (destruct (cuda lg probe) as [h|e];
       [unfold ODL.new_Vector, ODL.Vector__init__; cbn;
        now destruct (isinstance h CudaVectorFloat32)
       |now destruct e]). }
  rewrite E. cbn [fst snd]. split; [reflexivity|].
  split; [|split; [|split]].
  - split.
    + destruct (cuda lg probe) as [h|e]; [|destruct e; discriminate].
      destruct (isinstance h CudaVectorFloat32) eqn:I; [|discriminate].
      intros _. destruct (isinstance_inv _ _ I) as [id ->]. now exists id.
    + intros [id ->]. reflexivity.
  - split.
    + destruct (cuda lg probe) as [h|e].
      * destruct (isinstance h CudaVectorFloat32); discriminate.
      * destruct e; (reflexivity || discriminate).
    + intros ->. reflexivity.
  - intros e -> Hne. destruct e; try reflexivity. now elim Hne.
  - intros h -> I. now rewrite I.
Qed.

Lemma X18_load_module_witness :
  fst (ODL.load_module true (fun _ _ => Raise (NativeError 2))
                       Sample.to_array [])
  = ODL.Failed (NativeError 2)
  /\ fst (ODL.load_module true (fun _ _ => Ok ONone) Sample.to_array [])
     = ODL.Failed TypeError.
Proof.
  split.
  - apply (X18_load_module true (fun _ _ => Raise (NativeError 2))
                           Sample.to_array []);
      [reflexivity | discriminate].
  - apply (X18_load_module true (fun _ _ => Ok ONone) Sample.to_array []
                           ) with (h := ONone); reflexivity.
Defined.

(** *** CudaRN *)

Section RLMore.
Variable PyCuda : extension.
Variable np_array : pyobj -> dtype -> outcome pyobj.
Variable S : RL.CudaRN.


(** X19.  [S.zero()] and [S.empty()] ask the native space object for a
    vector, [impl.zero()] resp. [impl.empty()]; a [CudaRNVectorImpl] that
    comes back is wrapped as it is, with no further native call, and an
    exception of the native call is the exception of the method. *)
Theorem X19_RL_zero_empty (lg : log) :
  (forall id,
      PyCuda lg (Method (RL.impl S) "zero" [])
      = Ok (OHandle CudaRNVectorImpl id) ->
      RL.zero PyCuda np_array S lg
      = (Ok (RL.mkVector S (OHandle CudaRNVectorImpl id)),
         lg ++ [Method (RL.impl S) "zero" []]))
  /\ (forall id,
         PyCuda lg (Method (RL.impl S) "empty" [])
         = Ok (OHandle CudaRNVectorImpl id) ->
         RL.empty PyCuda np_array S lg
         = (Ok (RL.mkVector S (OHandle CudaRNVectorImpl id)),
            lg ++ [Method (RL.impl S) "empty" []]))
  /\ (forall e,
         PyCuda lg (Method (RL.impl S) "zero" []) = Raise e ->
         RL.zero PyCuda np_array S lg
         = (Raise e, lg ++ [Method (RL.impl S) "zero" []]))
  /\ (forall e,
         PyCuda lg (Method (RL.impl S) "empty" []) = Raise e ->
         RL.empty PyCuda np_array S lg
         = (Raise e, lg ++ [Method (RL.impl S) "empty" []])).
Proof.
  unfold RL.zero, RL.empty, RL.makeVector. run.
  repeat split; intros x H; rewrite H; reflexivity.
Qed.


End RLMore.

Lemma X19_RL_zero_empty_witness :
  let S := RL.mkCudaRN 3 ODL.RealNumbers (OHandle CudaRNImpl 0) in
  RL.zero Sample.ext Sample.to_array S []
  = (Ok (RL.mkVector S (OHandle CudaRNVectorImpl 0)),
     [Method (OHandle CudaRNImpl 0) "zero" []]).
Proof.
  intros S.
  apply (X19_RL_zero_empty Sample.ext Sample.to_array S []). reflexivity.
Defined.


End VectorMore.
